(** * Cloudbeds occupancy sync: a shallow embedding of
      [cloudbeds_occupancy_sync.py] and the properties of its retry loop,
      its session cleanup and its Airtable update.

    The script makes calls to two remote services (Airtop, Airtable) and
    writes log lines.  The embedding keeps every such call and log line as
    an event of a trace, takes the answers of the services from an
    [environment], and threads the trace together with the two local
    variables read by the [finally] clause through a small state-and-error
    monad. *)

From Stdlib Require Import String Ascii List ZArith NArith Bool Lia PrimFloat.
Import ListNotations.
Open Scope string_scope.
Open Scope list_scope.

Set Implicit Arguments.
Set Warnings "-register-all".

(** ** Python strings

    A Python [str] is modelled by a Rocq [string] whose characters stand for
    the code points U+0000 to U+00FF. *)

Module PyStr.

(** The double quote character, written by its code. *)
Definition dquote : ascii := "034"%char.
Definition squote : ascii := "039"%char.

(** [str.isspace] on one code point below 256: TAB, LF, VT, FF, CR,
    FS, GS, RS, US, SPACE, NEL and NBSP. *)
Definition isspace (c : ascii) : bool :=
  let n := N_of_ascii c in
  ((9 <=? n) && (n <=? 13) || (28 <=? n) && (n <=? 32)
   || (n =? 133) || (n =? 160))%N.

(** The whitespace skipped by the JSON decoder: SPACE, TAB, LF, CR. *)
Definition json_space (c : ascii) : bool :=
  let n := N_of_ascii c in
  ((n =? 32) || (n =? 9) || (n =? 10) || (n =? 13))%N.

Definition is_empty (s : string) : bool :=
  match s with EmptyString => true | String _ _ => false end.

Fixpoint lstrip_by (p : ascii -> bool) (s : string) : string :=
  match s with
  | EmptyString => EmptyString
  | String c s' => if p c then lstrip_by p s' else s
  end.

Fixpoint rstrip_by (p : ascii -> bool) (s : string) : string :=
  match s with
  | EmptyString => EmptyString
  | String c s' =>
      let r := rstrip_by p s' in
      if is_empty r && p c then EmptyString else String c r
  end.

Definition strip_by (p : ascii -> bool) (s : string) : string :=
  rstrip_by p (lstrip_by p s).

(** [s.strip()] *)
Definition strip (s : string) : string := strip_by isspace s.

(** [s.strip(chars)] *)
Definition strip_chars (chars : list ascii) (s : string) : string :=
  strip_by (fun c => existsb (Ascii.eqb c) chars) s.

(** [s.startswith(c)] for a one-character prefix. *)
Definition startswith (s : string) (c : ascii) : bool :=
  match s with
  | EmptyString => false
  | String c' _ => Ascii.eqb c' c
  end.

(** The value of [normalized] for a response [raw], lines 223-224. *)
Definition normalized (raw : string) : string :=
  strip (strip_chars [dquote; squote] (strip raw)).

End PyStr.

(** ** Python values as [json.loads] produces them *)

Inductive value : Type :=
| VNone                                   (* null *)
| VBool (b : bool)
| VInt (n : Z)
| VFloat (f : float)
| VStr (s : string)
| VList (l : list value)
| VDict (d : list (string * value)).

(** A [dict] with string keys, in insertion order.  A Python [dict] has no
    repeated key; nothing below depends on it. *)
Definition dict := list (string * value).

(** [d.get(k)], where the result [None] of Python is [VNone]. *)
Fixpoint dict_get (d : dict) (k : string) : value :=
  match d with
  | [] => VNone
  | (k', v) :: d' => if String.eqb k' k then v else dict_get d' k
  end.

(** [d.keys()] *)
Definition dict_keys (d : dict) : list string := map fst d.

(** [k in keys] *)
Definition mem (k : string) (keys : list string) : bool :=
  existsb (String.eqb k) keys.

(** [v == 0] for a value [v] that came out of [json.loads]: integers and
    floats compare numerically, [False == 0] holds because [bool] is a
    subclass of [int], and nothing else equals [0]. *)
Definition eq_zero (v : value) : bool :=
  match v with
  | VInt n => (n =? 0)%Z
  | VFloat f => PrimFloat.eqb f 0%float
  | VBool b => negb b
  | _ => false
  end.

(** ** Exceptions, events and the environment *)

(** The exception classes the script raises, catches or lets through.
    [ReadTimeout] is [httpx.ReadTimeout] and [HttpxError] any other
    [httpx.HTTPError]; [RequestsHTTPError] is [requests.HTTPError].  Every
    class here derives from [Exception]. *)
Inductive exn : Type :=
| RuntimeError (msg : string)
| ValueErrorMissing (missing : list string)
| JSONDecodeError (msg : string)
| AttributeError (msg : string)
| ApiError (status_code : Z) (body : string)
| ReadTimeout (detail : string)
| HttpxError (detail : string)
| RequestsHTTPError (status_code : Z)
| OtherException (name : string).

Inductive level : Type := INFO | WARNING | ERROR.

(** An argument of a [logging] call. *)
Inductive logarg : Type :=
| LInt (n : Z)
| LStr (s : string)
| LOpt (o : option string)
| LValue (v : value)
| LExn (e : exn).

(** What a run does that the outside can see: its log lines and its calls
    to the two services.  Arguments that are constants of the script and
    play no part below (the prompt, the HTTP timeouts, the query
    configuration) are left out. *)
Inductive event : Type :=
| Log (lv : level) (fmt : string) (args : list logarg)
| ClientNew (api_key : string)
| SessionsCreate (profile_name : string) (timeout_minutes : Z)
| SaveProfile (session_id : option string) (profile_name : string)
| WindowsCreate (session_id : option string) (url : string)
| Sleep (seconds : Z)
| PageQuery (session_id : option string) (window_id : string)
| SessionsTerminate (session_id : string)
| Patch (url : string) (headers : list (string * string)) (json : value).

(** [session] as [client.sessions.create] answers: [errors] is [Some] when
    the attribute is there and truthy, [data] carries the session id. *)
Record session_response : Type :=
  { session_errors : option string;
    session_data : option string }.

(** [prompt_response] of [client.windows.page_query]: [error] is [Some] when
    the attribute is there and truthy; [data] carries [model_response]. *)
Record prompt_response : Type :=
  { pr_error : option string;
    pr_data : option string }.

(** The response of [requests.patch]. *)
Record http_response : Type :=
  { status_code : Z;
    text : string }.

(** The answers of the outside world during one run.  [page_query] is
    indexed by the attempt during which the call is made. *)
Record environment : Type :=
  { getenv : string -> option string;
    sessions_create : exn + option session_response;
    save_profile_on_termination : exn + unit;
    windows_create : exn + option string;
    page_query : nat -> exn + prompt_response;
    sessions_terminate : exn + unit;
    requests_patch :
      string -> list (string * string) -> value -> exn + http_response }.

(** ** The monad: a trace, the locals [client] and [session_id], errors *)

Record state : Type :=
  { client : bool;                 (* client is not None *)
    session_id : option string;
    trace : list event }.

Definition M (A : Type) : Type := state -> (exn + A) * state.

Definition ret {A} (a : A) : M A := fun s => (inr a, s).

Definition raise {A} (e : exn) : M A := fun s => (inl e, s).

Definition bind {A B} (m : M A) (k : A -> M B) : M B :=
  fun s =>
    match m s with
    | (inl e, s') => (inl e, s')
    | (inr a, s') => k a s'
    end.

Declare Scope monad_scope.
Delimit Scope monad_scope with monad.
Notation "x <- m ;; k" := (bind m (fun x => k))
  (at level 61, m at next level, right associativity) : monad_scope.
Notation "m ;; k" := (bind m (fun _ => k))
  (at level 61, right associativity) : monad_scope.
Open Scope monad_scope.

Definition emit (ev : event) : M unit :=
  fun s => (inr tt, {| client := client s; session_id := session_id s;
                       trace := trace s ++ [ev] |}).

(** A result or an exception that is already known. *)
Definition lift {A} (r : exn + A) : M A :=
  match r with inl e => raise e | inr a => ret a end.

(** An awaited call to a service: the request is seen, then the answer. *)
Definition call {A} (ev : event) (answer : exn + A) : M A :=
  emit ev ;; lift answer.

Definition log (lv : level) (fmt : string) (args : list logarg) : M unit :=
  emit (Log lv fmt args).

Definition sleep (seconds : Z) : M unit := emit (Sleep seconds).

Definition set_client (c : bool) : M unit :=
  fun s => (inr tt, {| client := c; session_id := session_id s;
                       trace := trace s |}).

Definition set_session_id (i : option string) : M unit :=
  fun s => (inr tt, {| client := client s; session_id := i;
                       trace := trace s |}).

Definition get_client : M bool := fun s => (inr (client s), s).

Definition get_session_id : M (option string) :=
  fun s => (inr (session_id s), s).

(** [try: body except ...: handler] *)
Definition try_except {A} (body : M A) (handler : exn -> M A) : M A :=
  fun s =>
    match body s with
    | (inl e, s') => handler e s'
    | (inr a, s') => (inr a, s')
    end.

(** [try: body finally: final]: the outcome of [body] stands unless
    [final] itself raises. *)
Definition try_finally {A} (body : M A) (final : M unit) : M A :=
  fun s =>
    match body s with
    | (r, s') =>
        match final s' with
        | (inl e, s'') => (inl e, s'')
        | (inr _, s'') => (r, s'')
        end
    end.

(** What one pass of a [for] body asks of the loop. *)
Inductive control (A : Type) : Type :=
| Continue
| Return (a : A).
Arguments Continue {A}.
Arguments Return {A} a.

(** [for x in xs: body(x)] followed by [after] when the loop runs out. *)
Fixpoint for_each {X A} (xs : list X) (body : X -> M (control A))
    (after : M A) : M A :=
  match xs with
  | [] => after
  | x :: xs' =>
      c <- body x ;;
      match c with
      | Continue => for_each xs' body after
      | Return a => ret a
      end
  end.

(** ** The script *)

(** *** Configuration constants *)

Definition CLOUDBEDS_PROFILE_NAME := "Cloudbeds".
Definition CLOUDBEDS_DASHBOARD_URL :=
  "https://hotels.cloudbeds.com/connect/310986#/dashboard".

Definition AIRTABLE_BASE_ID := "appqstjfFNrdvbxIE".
Definition AIRTABLE_TABLE_NAME := "Occupancy".
Definition AIRTABLE_RECORD_ID := "recUbCZSPvOPj10Rn".

Definition FIELD_AVAILABLE := "Available Units".
Definition FIELD_BOOKED := "Booked Units".
Definition FIELD_OOS := "Out of Service".
Definition FIELD_BLOCKED := "Blocked Dates".

Definition max_attempts : nat := 3.

(** The set [expected_keys], as a list without repetition. *)
Definition expected_keys : list string :=
  ["available_units"; "booked_units"; "out_of_service"; "blocked_dates"].

(** [os.getenv(name, default)] *)
Definition getenv_default (w : environment) (name default : string) : string :=
  match getenv w name with
  | Some v => v
  | None => default
  end.

(** [requests.Response.raise_for_status], as the requests library defines
    it: an [HTTPError] for a status from 400 to 599, nothing otherwise. *)
Definition raise_for_status (resp : http_response) : exn + unit :=
  if ((400 <=? status_code resp) && (status_code resp <? 600))%Z
  then inl (RequestsHTTPError (status_code resp))
  else inr tt.

(** The [fields] object of the request body, lines 111-118. *)
Definition airtable_fields (occupancy : dict) : dict :=
  [ (FIELD_AVAILABLE, dict_get occupancy "available_units");
    (FIELD_BOOKED, dict_get occupancy "booked_units");
    (FIELD_OOS, dict_get occupancy "out_of_service");
    (FIELD_BLOCKED, dict_get occupancy "blocked_dates") ].

(** [payload], lines 111-118. *)
Definition airtable_payload (occupancy : dict) : dict :=
  [ ("fields", VDict (airtable_fields occupancy)) ].

(** [url], line 104. *)
Definition airtable_url : string :=
  ("https://api.airtable.com/v0/" ++ AIRTABLE_BASE_ID ++ "/"
   ++ AIRTABLE_TABLE_NAME ++ "/" ++ AIRTABLE_RECORD_ID)%string.

(** [headers], lines 106-109. *)
Definition airtable_headers (api_key : string) : list (string * string) :=
  [ ("Authorization", ("Bearer " ++ api_key)%string);
    ("Content-Type", "application/json") ].

Section Script.

(** [json.loads] of the standard library is taken as given. *)
Variable json_loads : string -> exn + value.

Variable w : environment.

Definition AIRTOP_API_KEY : string :=
  getenv_default w "AIRTOP_API_KEY" "YOUR_API_KEY_HERE".

Definition AIRTABLE_API_KEY : string :=
  getenv_default w "AIRTABLE_API_KEY" "YOUR_AIRTABLE_API_KEY".

(** *** Airtable backend *)

Definition update_airtable (occupancy : dict) : M unit :=
  if PyStr.is_empty AIRTABLE_API_KEY
     || (AIRTABLE_API_KEY =? "YOUR_AIRTABLE_API_KEY")
  then raise (RuntimeError "AIRTABLE_API_KEY is not set")
  else
    let url := airtable_url in
    let headers := airtable_headers AIRTABLE_API_KEY in
    let payload := airtable_payload occupancy in
    log INFO "Updating Airtable: %s" [LValue (dict_get payload "fields")] ;;
    resp <- call (Patch url headers (VDict payload))
                 (requests_patch w url headers (VDict payload)) ;;
    try_except
      (lift (raise_for_status resp))
      (fun e =>
         match e with
         | RequestsHTTPError _ =>
             log ERROR "Error updating Airtable: %s - %s"
                 [LExn e; LStr (text resp)] ;;
             raise e
         | _ => raise e
         end) ;;
    log INFO "Airtable update OK." [].

(** *** Airtop / Cloudbeds scrape *)

(** One pass of the body of [for attempt in range(1, max_attempts + 1)],
    lines 207-266. *)
Definition attempt_body (window_id : string) (attempt : nat)
  : M (control (option dict)) :=
  log INFO "Running page_query attempt %d/%d..."
      [LInt (Z.of_nat attempt); LInt (Z.of_nat max_attempts)] ;;
  sid <- get_session_id ;;
  prompt_response <- call (PageQuery sid window_id) (page_query w attempt) ;;
  match pr_error prompt_response with
  | Some err => raise (RuntimeError ("Failed to prompt content: " ++ err)%string)
  | None =>
  raw <- match pr_data prompt_response with
         | Some raw => ret raw
         | None => raise (AttributeError "model_response")
         end ;;
  log INFO "Raw model response (attempt %d): %r"
      [LInt (Z.of_nat attempt); LStr raw] ;;
  let raw_stripped := PyStr.strip raw in
  let normalized :=
    PyStr.strip
      (PyStr.strip_chars [PyStr.dquote; PyStr.squote] raw_stripped) in
  (* Handle NO_DATA sentinel response *)
  if normalized =? "NO_DATA" then
    (* the source has an en dash (U+2013) where this text has " - " *)
    log WARNING
        "Attempt %d: model returned NO_DATA - Occupancy widget not visible."
        [LInt (Z.of_nat attempt)] ;;
    if Nat.eqb attempt max_attempts then
      log WARNING
        "Maximum attempts reached with NO_DATA. Returning None and skipping update."
        [] ;;
      ret (Return None)
    else
      sleep 5 ;;
      ret Continue
  else if negb (PyStr.startswith raw_stripped "{") then
    raise (RuntimeError
             ("Model did not return JSON; got: " ++ raw_stripped)%string)
  else
    (* Try to parse JSON from the model response *)
    parsed <- lift (json_loads raw_stripped) ;;
    (* occupancy.keys() needs a dict *)
    occupancy <- match parsed with
                 | VDict d => ret d
                 | _ => raise (AttributeError "keys")
                 end ;;
    (* Basic sanity-check of keys *)
    let missing :=
      filter (fun k => negb (mem k (dict_keys occupancy))) expected_keys in
    if negb (Nat.eqb (length missing) 0) then
      raise (ValueErrorMissing missing)
    (* if everything comes back as 0, retry unless attempts are exhausted *)
    else if forallb (fun k => eq_zero (dict_get occupancy k)) expected_keys
    then
      log WARNING
        "Attempt %d: model returned 0 for all occupancy fields. This is likely incorrect; will retry if attempts remain."
        [LInt (Z.of_nat attempt)] ;;
      if Nat.eqb attempt max_attempts then
        raise (RuntimeError
          "Model returned 0 for all occupancy fields after multiple attempts.")
      else
        sleep 5 ;;
        ret Continue
    else
      (* Successful parse with non-zero data *)
      ret (Return (Some occupancy))
  end.

(** The body of the [try], lines 158-269. *)
Definition fetch_try_body : M (option dict) :=
  (* Initialize Airtop client *)
  emit (ClientNew AIRTOP_API_KEY) ;;
  set_client true ;;
  session <- call (SessionsCreate CLOUDBEDS_PROFILE_NAME 10)
                  (sessions_create w) ;;
  session <- match session with
             | None => raise (RuntimeError "Failed to create session: None")
             | Some session =>
                 match session_errors session with
                 | Some errors =>
                     raise (RuntimeError
                              ("Failed to create session: " ++ errors)%string)
                 | None => ret session
                 end
             end ;;
  set_session_id (session_data session) ;;
  sid <- get_session_id ;;
  log INFO "Created Airtop session: %s" [LOpt sid] ;;
  (* Save login cookies etc. when we terminate *)
  call (SaveProfile sid CLOUDBEDS_PROFILE_NAME)
       (save_profile_on_termination w) ;;
  (* Open Cloudbeds dashboard *)
  window <- call (WindowsCreate sid CLOUDBEDS_DASHBOARD_URL)
                 (windows_create w) ;;
  window_id <- match window with
               | None => raise (RuntimeError "Failed to create window")
               | Some window_id => ret window_id
               end ;;
  log INFO "Created window: %s" [LStr window_id] ;;
  (* Give the dashboard time to fully load *)
  sleep 5 ;;
  for_each (seq 1 max_attempts) (attempt_body window_id)
    (* Should not normally reach here *)
    (raise (RuntimeError "Failed to obtain occupancy data after retries.")).

(** The three [except] clauses, lines 271-283: each logs and re-raises;
    any other exception passes through. *)
Definition fetch_handlers (e : exn) : M (option dict) :=
  match e with
  | ApiError status body =>
      log ERROR "Airtop API Error: %s - %s" [LInt status; LStr body] ;;
      raise e
  | ReadTimeout _ =>
      log ERROR
        "Timed out while talking to the Airtop API. This is usually a capacity or network issue. Details: %s"
        [LExn e] ;;
      raise e
  | HttpxError _ =>
      log ERROR "HTTP error while talking to the Airtop API: %s" [LExn e] ;;
      raise e
  | _ => raise e
  end.

(** The [finally] clause, lines 284-290. *)
Definition fetch_finally : M unit :=
  c <- get_client ;;
  sid <- get_session_id ;;
  match c, sid with
  | true, Some sid =>
      log INFO "Terminating Airtop session..." [] ;;
      try_except
        (call (SessionsTerminate sid) (sessions_terminate w))
        (fun e => log WARNING "Error terminating session: %s" [LExn e])
  | _, _ => ret tt
  end.

Definition fetch_occupancy_from_cloudbeds : M (option dict) :=
  if PyStr.is_empty AIRTOP_API_KEY || (AIRTOP_API_KEY =? "AIRTOP_API_KEY")
  then raise (RuntimeError "AIRTOP_API_KEY is not set")
  else
    set_client false ;;
    set_session_id None ;;
    try_finally (try_except fetch_try_body fetch_handlers) fetch_finally.

(** *** Main *)

Definition main : M unit :=
  occupancy <- fetch_occupancy_from_cloudbeds ;;
  match occupancy with
  | None =>
      log WARNING
        "No occupancy data available; skipping Airtable update this run." []
  | Some occupancy =>
      log INFO "Occupancy from Cloudbeds: %s" [LValue (VDict occupancy)] ;;
      update_airtable occupancy
  end.

End Script.

(** A run starts with an empty trace. *)
Definition initial : state :=
  {| client := false; session_id := None; trace := [] |}.

(** ** Vocabulary of the statements *)

(** The state [s] after the events [evs] have been added to its trace. *)
Definition add_events (s : state) (evs : list event) : state :=
  {| client := client s; session_id := session_id s;
     trace := trace s ++ evs |}.

Definition is_page_query (ev : event) : bool :=
  match ev with PageQuery _ _ => true | _ => false end.

Definition is_terminate (ev : event) : bool :=
  match ev with SessionsTerminate _ => true | _ => false end.

Definition is_patch (ev : event) : bool :=
  match ev with Patch _ _ _ => true | _ => false end.

Definition is_sleep (ev : event) : bool :=
  match ev with Sleep _ => true | _ => false end.

(** How many events of a trace satisfy [p]. *)
Definition count (p : event -> bool) (t : list event) : nat :=
  length (filter p t).

(** The key check of line 151 lets the run go on. *)
Definition airtop_key_passes (w : environment) : Prop :=
  (PyStr.is_empty (AIRTOP_API_KEY w)
   || (AIRTOP_API_KEY w =? "AIRTOP_API_KEY")%string) = false.

(** The key check of line 101 lets the update go on. *)
Definition airtable_key_passes (w : environment) : Prop :=
  (PyStr.is_empty (AIRTABLE_API_KEY w)
   || (AIRTABLE_API_KEY w =? "YOUR_AIRTABLE_API_KEY")%string) = false.

(** The session id the run holds when it reaches the [finally] clause:
    the one of a session that was created without errors. *)
Definition session_of (w : environment) : option string :=
  match sessions_create w with
  | inr (Some session) =>
      match session_errors session with
      | None => session_data session
      | Some _ => None
      end
  | _ => None
  end.

(** Everything before the retry loop goes through: the key check, the
    session (with id [sid], possibly [None]), the profile request and the
    window [wid]. *)
Definition setup_passes (w : environment) (sid : option string)
    (wid : string) : Prop :=
  airtop_key_passes w /\
  sessions_create w =
    inr (Some {| session_errors := None; session_data := sid |}) /\
  save_profile_on_termination w = inr tt /\
  windows_create w = inr (Some wid).

(** The query of attempt [n] is answered, without error, by the text
    [raw]. *)
Definition answers (w : environment) (n : nat) (raw : string) : Prop :=
  page_query w n = inr {| pr_error := None; pr_data := Some raw |}.

(** [raw] is the sentinel once whitespace and quotes are stripped. *)
Definition is_sentinel (raw : string) : Prop :=
  PyStr.normalized raw = "NO_DATA".

(** [raw] parses as the JSON object [d]. *)
Definition parses_as (json_loads : string -> exn + value) (raw : string)
    (d : dict) : Prop :=
  json_loads (PyStr.strip raw) = inr (VDict d).

Definition has_all_keys (d : dict) : Prop :=
  forall k, In k expected_keys -> In k (dict_keys d).

(** All four values satisfy [== 0]. *)
Definition all_zero (d : dict) : Prop :=
  forall k, In k expected_keys -> eq_zero (dict_get d k) = true.

(** One of the four values does not satisfy [== 0]. *)
Definition some_nonzero (d : dict) : Prop :=
  exists k, In k expected_keys /\ eq_zero (dict_get d k) = false.

(** A response the loop answers by waiting and trying again. *)
Definition retried (json_loads : string -> exn + value) (raw : string)
    : Prop :=
  is_sentinel raw \/
  exists d, parses_as json_loads raw d /\ has_all_keys d /\ all_zero d.

(** Attempt [n] is made: the setup went through and every earlier attempt
    was answered by a response that is retried. *)
Definition attempt_made (json_loads : string -> exn + value)
    (w : environment) (n : nat) : Prop :=
  (exists sid wid, setup_passes w sid wid) /\
  (1 <= n <= max_attempts)%nat /\
  forall j, (1 <= j < n)%nat ->
            exists raw, answers w j raw /\ retried json_loads raw.

(** What is assumed of [json.loads]: when it returns a [dict], the first
    character of its input after JSON whitespace is an opening brace. *)
Definition loads_object_brace (json_loads : string -> exn + value) : Prop :=
  forall s d,
    json_loads s = inr (VDict d) ->
    PyStr.startswith (PyStr.lstrip_by PyStr.json_space s) "{" = true.

(** A reading the loop accepts at attempt [n]: the answer is not the
    sentinel, starts with an opening brace once stripped, parses as the
    object [d], which has the four keys and a value that is not [== 0]. *)
Definition accepted_at (json_loads : string -> exn + value)
    (w : environment) (n : nat) (d : dict) : Prop :=
  exists raw,
    answers w n raw /\
    ~ is_sentinel raw /\
    PyStr.startswith (PyStr.strip raw) "{" = true /\
    parses_as json_loads raw d /\
    has_all_keys d /\
    some_nonzero d.

(** The three events of every attempt that gets an answer. *)
Definition attempt_events (sid : option string) (wid : string) (n : nat)
    (raw : string) : list event :=
  [ Log INFO "Running page_query attempt %d/%d..."
        [LInt (Z.of_nat n); LInt (Z.of_nat max_attempts)];
    PageQuery sid wid;
    Log INFO "Raw model response (attempt %d): %r"
        [LInt (Z.of_nat n); LStr raw] ].

(** The events of the setup, from the client to the settle delay. *)
Definition setup_events (w : environment) (sid : option string)
    (wid : string) : list event :=
  [ ClientNew (AIRTOP_API_KEY w);
    SessionsCreate CLOUDBEDS_PROFILE_NAME 10;
    Log INFO "Created Airtop session: %s" [LOpt sid];
    SaveProfile sid CLOUDBEDS_PROFILE_NAME;
    WindowsCreate sid CLOUDBEDS_DASHBOARD_URL;
    Log INFO "Created window: %s" [LStr wid];
    Sleep 5 ].

(** An event that is neither a termination request nor a PATCH. *)
Definition calm_event (ev : event) : bool :=
  negb (is_terminate ev || is_patch ev).

(** A trace of the scrape proper: no termination request, no PATCH. *)
Definition calm (evs : list event) : Prop :=
  forallb calm_event evs = true.

(** The environment [w] with another answer to the termination request. *)
Definition with_terminate (w : environment) (answer : exn + unit)
    : environment :=
  {| getenv := getenv w;
     sessions_create := sessions_create w;
     save_profile_on_termination := save_profile_on_termination w;
     windows_create := windows_create w;
     page_query := page_query w;
     sessions_terminate := answer;
     requests_patch := requests_patch w |}.

(** The events of the [finally] clause when it is entered with the locals
    [client] and [session_id]. *)
Definition cleanup_events (w : environment) (client : bool)
    (session_id : option string) : list event :=
  match client, session_id with
  | true, Some sid =>
      [ Log INFO "Terminating Airtop session..." [];
        SessionsTerminate sid ] ++
      match sessions_terminate w with
      | inl e => [ Log WARNING "Error terminating session: %s" [LExn e] ]
      | inr _ => []
      end
  | _, _ => []
  end.

(** The events of [update_airtable] once its key check has passed. *)
Definition update_events (w : environment) (occupancy : dict) : list event :=
  [ Log INFO "Updating Airtable: %s"
        [LValue (VDict (airtable_fields occupancy))];
    Patch airtable_url (airtable_headers (AIRTABLE_API_KEY w))
          (VDict (airtable_payload occupancy)) ] ++
  match requests_patch w airtable_url (airtable_headers (AIRTABLE_API_KEY w))
                       (VDict (airtable_payload occupancy)) with
  | inl _ => []
  | inr resp =>
      match raise_for_status resp with
      | inl e =>
          [ Log ERROR "Error updating Airtable: %s - %s"
                [LExn e; LStr (text resp)] ]
      | inr _ => [ Log INFO "Airtable update OK." [] ]
      end
  end.

(** The outcome of the loop body that ends the loop with the result [r]. *)
Definition decided (r : exn + option dict) : exn + control (option dict) :=
  match r with
  | inl e => inl e
  | inr a => inr (Return a)
  end.

(** The keys of [expected_keys] that [d] lacks, line 247. *)
Definition missing_keys (d : dict) : list string :=
  filter (fun k => negb (mem k (dict_keys d))) expected_keys.

(** The outcome of [update_airtable] once the request has been answered. *)
Definition patch_outcome (answer : exn + http_response) : exn + unit :=
  match answer with
  | inl e => inl e
  | inr resp => raise_for_status resp
  end.

(** The wire contract as section 6 of the specification words it: a JSON
    object with exactly the four keys and integer values.  The script has
    no such test; this one is what C6 is measured against. *)
Definition wire_conforming (d : dict) : bool :=
  forallb (fun k => mem k expected_keys) (dict_keys d)
  && forallb (fun k => mem k (dict_keys d)) expected_keys
  && forallb (fun kv => match snd kv with VInt _ => true | _ => false end) d.

(** ** Sample inputs *)

Module Sample.

(** [s] between double quotes. *)
Definition q (s : string) : string :=
  String PyStr.dquote (s ++ String PyStr.dquote EmptyString)%string.

(** The text of a JSON object with the given members, as written. *)
Fixpoint members (kvs : list (string * string)) : string :=
  match kvs with
  | [] => EmptyString
  | [(k, v)] => (q k ++ ":" ++ v)%string
  | (k, v) :: rest => (q k ++ ":" ++ v ++ "," ++ members rest)%string
  end.

Definition object (kvs : list (string * string)) : string :=
  ("{" ++ members kvs ++ "}")%string.

(** The reading of scenario A. *)
Definition reading_text : string :=
  object [ ("available_units", "28"); ("booked_units", "8");
           ("out_of_service", "3"); ("blocked_dates", "2") ].

Definition reading : dict :=
  [ ("available_units", VInt 28); ("booked_units", VInt 8);
    ("out_of_service", VInt 3); ("blocked_dates", VInt 2) ].

Definition zeros_text : string :=
  object [ ("available_units", "0"); ("booked_units", "0");
           ("out_of_service", "0"); ("blocked_dates", "0") ].

Definition zeros : dict :=
  [ ("available_units", VInt 0); ("booked_units", VInt 0);
    ("out_of_service", VInt 0); ("blocked_dates", VInt 0) ].

(** A reading with a fifth key. *)
Definition extra_text : string :=
  object [ ("available_units", "28"); ("booked_units", "8");
           ("out_of_service", "3"); ("blocked_dates", "2");
           ("occupancy", "28") ].

Definition extra : dict :=
  [ ("available_units", VInt 28); ("booked_units", VInt 8);
    ("out_of_service", VInt 3); ("blocked_dates", VInt 2);
    ("occupancy", VInt 28) ].

(** A reading whose values are strings. *)
Definition quoted_text : string :=
  object [ ("available_units", q "28"); ("booked_units", q "8");
           ("out_of_service", q "3"); ("blocked_dates", q "2") ].

Definition quoted : dict :=
  [ ("available_units", VStr "28"); ("booked_units", VStr "8");
    ("out_of_service", VStr "3"); ("blocked_dates", VStr "2") ].

(** An object that lacks [blocked_dates]. *)
Definition partial_text : string :=
  object [ ("available_units", "28"); ("booked_units", "8");
           ("out_of_service", "3") ].

Definition partial : dict :=
  [ ("available_units", VInt 28); ("booked_units", VInt 8);
    ("out_of_service", VInt 3) ].

(** What [json.loads] returns on the texts above. *)
Definition loads_table : list (string * value) :=
  [ (reading_text, VDict reading);
    (zeros_text, VDict zeros);
    (extra_text, VDict extra);
    (quoted_text, VDict quoted);
    (partial_text, VDict partial) ].

(** [json.loads] read off a table; a text outside the table is taken to
    be no JSON. *)
Definition loads_from (table : list (string * value)) (s : string)
    : exn + value :=
  match find (fun entry => (fst entry =? s)%string) table with
  | Some entry => inr (snd entry)
  | None => inl (JSONDecodeError "Expecting value")
  end.

Definition json_loads : string -> exn + value := loads_from loads_table.

(** Every text of the table that stands for an object starts with an
    opening brace. *)
Definition table_braces (table : list (string * value)) : bool :=
  forallb
    (fun entry =>
       match snd entry with
       | VDict _ =>
           PyStr.startswith
             (PyStr.lstrip_by PyStr.json_space (fst entry)) "{"
       | _ => true
       end)
    table.

Definition answer (raw : string) : exn + prompt_response :=
  inr {| pr_error := None; pr_data := Some raw |}.

(** An environment in which both keys are set, the setup goes through
    with session [sess-1] and window [win-1], the three attempts are
    answered by [r1], [r2] and [r3], the termination request by
    [terminated] and the PATCH by the status [status]. *)
Definition env (r1 r2 r3 : string) (terminated : exn + unit)
    (status : Z) : environment :=
  {| getenv := fun name =>
       if (name =? "AIRTOP_API_KEY")%string then Some "sk-live"
       else if (name =? "AIRTABLE_API_KEY")%string then Some "pat-live"
       else None;
     sessions_create :=
       inr (Some {| session_errors := None;
                    session_data := Some "sess-1" |});
     save_profile_on_termination := inr tt;
     windows_create := inr (Some "win-1");
     page_query := fun n =>
       match n with
       | 1 => answer r1
       | 2 => answer r2
       | _ => answer r3
       end;
     sessions_terminate := terminated;
     requests_patch := fun _ _ _ =>
       inr {| status_code := status; text := "body" |} |}.

(** The same with an empty process environment, and a service that
    refuses the session. *)
Definition env_unset : environment :=
  {| getenv := fun _ => None;
     sessions_create := inl (ApiError 401 "Unauthorized");
     save_profile_on_termination := inr tt;
     windows_create := inr (Some "win-1");
     page_query := fun _ => answer "NO_DATA";
     sessions_terminate := inr tt;
     requests_patch := fun _ _ _ =>
       inr {| status_code := 200; text := "body" |} |}.

(** Both keys set, and a service that refuses the session. *)
Definition env_refused : environment :=
  {| getenv := fun _ => Some "sk-live";
     sessions_create := inl (ApiError 503 "Service Unavailable");
     save_profile_on_termination := inr tt;
     windows_create := inr (Some "win-1");
     page_query := fun _ => answer "NO_DATA";
     sessions_terminate := inr tt;
     requests_patch := fun _ _ _ =>
       inr {| status_code := 200; text := "body" |} |}.

End Sample.

(** ** Vocabulary of the further properties *)

(** A log line at level ERROR. *)
Definition is_error_log (ev : event) : bool :=
  match ev with Log ERROR _ _ => true | _ => false end.

(** The exceptions the [except] clauses of lines 271-283 name. *)
Definition airtop_transport (e : exn) : bool :=
  match e with
  | ApiError _ _ | ReadTimeout _ | HttpxError _ => true
  | _ => false
  end.

(** The events of the [except] clauses when [e] reaches them. *)
Definition handler_events (e : exn) : list event :=
  match e with
  | ApiError status body =>
      [ Log ERROR "Airtop API Error: %s - %s" [LInt status; LStr body] ]
  | ReadTimeout _ =>
      [ Log ERROR
          "Timed out while talking to the Airtop API. This is usually a capacity or network issue. Details: %s"
          [LExn e] ]
  | HttpxError _ =>
      [ Log ERROR "HTTP error while talking to the Airtop API: %s" [LExn e] ]
  | _ => []
  end.

(** The events between the body of the [try] and the [finally] clause. *)
Definition outcome_events (r : exn + option dict) : list event :=
  match r with
  | inl e => handler_events e
  | inr _ => []
  end.

(** An event of the retry loop that is no ERROR line, no termination
    request and no PATCH. *)
Definition plain_event (ev : event) : bool :=
  negb (is_error_log ev || is_terminate ev || is_patch ev).

Definition plain (evs : list event) : Prop :=
  forallb plain_event evs = true.

(** Every character of [s] satisfies [p]. *)
Fixpoint all_chars (p : ascii -> bool) (s : string) : bool :=
  match s with
  | EmptyString => true
  | String c s' => p c && all_chars p s'
  end.

(** One of the two quote characters stripped at line 224. *)
Definition is_quote (c : ascii) : bool :=
  existsb (Ascii.eqb c) [PyStr.dquote; PyStr.squote].



(** ** Further sample inputs *)

Module Cases.

(** [w] with another process environment. *)
Definition with_getenv (w : environment) (f : string -> option string)
    : environment :=
  {| getenv := f;
     sessions_create := sessions_create w;
     save_profile_on_termination := save_profile_on_termination w;
     windows_create := windows_create w;
     page_query := page_query w;
     sessions_terminate := sessions_terminate w;
     requests_patch := requests_patch w |}.

(** [w] with another answer to [sessions.create]. *)
Definition with_session (w : environment)
    (answer : exn + option session_response) : environment :=
  {| getenv := getenv w;
     sessions_create := answer;
     save_profile_on_termination := save_profile_on_termination w;
     windows_create := windows_create w;
     page_query := page_query w;
     sessions_terminate := sessions_terminate w;
     requests_patch := requests_patch w |}.

(** [w] with another answer to [windows.create]. *)
Definition with_window (w : environment) (answer : exn + option string)
    : environment :=
  {| getenv := getenv w;
     sessions_create := sessions_create w;
     save_profile_on_termination := save_profile_on_termination w;
     windows_create := answer;
     page_query := page_query w;
     sessions_terminate := sessions_terminate w;
     requests_patch := requests_patch w |}.

(** [w] with another answer to the query of attempt [n]. *)
Definition with_query (w : environment) (n : nat)
    (answer : exn + prompt_response) : environment :=
  {| getenv := getenv w;
     sessions_create := sessions_create w;
     save_profile_on_termination := save_profile_on_termination w;
     windows_create := windows_create w;
     page_query := fun m => if Nat.eqb m n then answer else page_query w m;
     sessions_terminate := sessions_terminate w;
     requests_patch := requests_patch w |}.

(** [w] with another answer to every PATCH. *)
Definition with_patch (w : environment) (answer : exn + http_response)
    : environment :=
  {| getenv := getenv w;
     sessions_create := sessions_create w;
     save_profile_on_termination := save_profile_on_termination w;
     windows_create := windows_create w;
     page_query := page_query w;
     sessions_terminate := sessions_terminate w;
     requests_patch := fun _ _ _ => answer |}.

(** The run of scenario A: the sentinel, then the reading. *)
Definition scenario_a : environment :=
  Sample.env "NO_DATA" Sample.reading_text "" (inr tt) 200.

(** A text that starts like an object and is no JSON. *)
Definition broken_text : string := "{available_units: 28".

End Cases.

(** ** Facts about stripping *)

Module PyStrFacts.
Import PyStr.

Lemma lstrip_by_head (p : ascii -> bool) (s : string) :
  lstrip_by p s = EmptyString \/
  exists c s', lstrip_by p s = String c s' /\ p c = false.
Proof.
  induction s as [|c s IH]; simpl.
  - now left.
  - destruct (p c) eqn:E; [exact IH|].
    right. now exists c, s.
Qed.

Lemma rstrip_by_head (p : ascii -> bool) (c : ascii) (s : string) :
  p c = false -> exists r, rstrip_by p (String c s) = String c r.
Proof.
  intros E. simpl. rewrite E, andb_false_r. eauto.
Qed.

Lemma strip_by_head (p : ascii -> bool) (s : string) :
  strip_by p s = EmptyString \/
  exists c r, strip_by p s = String c r /\ p c = false.
Proof.
  unfold strip_by.
  destruct (lstrip_by_head p s) as [E|(c & s' & E & Hc)]; rewrite E.
  - now left.
  - right. destruct (rstrip_by_head p c s' Hc) as [r Hr].
    exists c, r. now split.
Qed.

(** Stripping keeps a first character that is not stripped. *)
Lemma strip_by_keeps_head (p : ascii -> bool) (c : ascii) (s : string) :
  p c = false -> exists r, strip_by p (String c s) = String c r.
Proof.
  intros E. unfold strip_by. simpl. rewrite E.
  now apply rstrip_by_head.
Qed.

Lemma json_space_isspace (c : ascii) :
  json_space c = true -> isspace c = true.
Proof.
  unfold json_space, isspace. intros H.
  repeat (apply orb_true_iff in H; destruct H as [H|H]);
    apply N.eqb_eq in H; rewrite H; reflexivity.
Qed.

(** A stripped string has no JSON whitespace left in front. *)
Lemma lstrip_json_strip (raw : string) :
  lstrip_by json_space (strip raw) = strip raw.
Proof.
  unfold strip.
  destruct (strip_by_head isspace raw) as [E|(c & r & E & Hc)]; rewrite E.
  - reflexivity.
  - simpl. destruct (json_space c) eqn:J; [|reflexivity].
    apply json_space_isspace in J. congruence.
Qed.

(** A response that starts with an opening brace once stripped is not
    taken for the sentinel. *)
Lemma brace_not_sentinel (raw : string) :
  startswith (strip raw) "{" = true ->
  (normalized raw =? "NO_DATA")%string = false.
Proof.
  unfold normalized. destruct (strip raw) as [|c s]; simpl; [discriminate|].
  intros H. apply Ascii.eqb_eq in H. subst c.
  destruct (strip_by_keeps_head
              (fun c => existsb (Ascii.eqb c) [dquote; squote]) "{" s
              eq_refl) as [r Hr].
  unfold strip_chars. rewrite Hr.
  destruct (strip_by_keeps_head isspace "{" r eq_refl) as [r' Hr'].
  unfold strip. rewrite Hr'. reflexivity.
Qed.

End PyStrFacts.


(** ** Facts about traces and dictionaries *)

Lemma add_events_nil (s : state) : add_events s [] = s.
Proof. destruct s; unfold add_events; simpl. now rewrite app_nil_r. Qed.

Lemma add_events_app (s : state) (e1 e2 : list event) :
  add_events (add_events s e1) e2 = add_events s (e1 ++ e2).
Proof. unfold add_events; simpl. now rewrite app_assoc. Qed.

Lemma count_app (p : event -> bool) (t1 t2 : list event) :
  count p (t1 ++ t2) = count p t1 + count p t2.
Proof. unfold count. now rewrite filter_app, length_app. Qed.

Lemma calm_app (e1 e2 : list event) : calm e1 -> calm e2 -> calm (e1 ++ e2).
Proof.
  unfold calm. intros H1 H2. rewrite forallb_app. now rewrite H1, H2.
Qed.

Lemma calm_filter (evs : list event) :
  calm evs -> filter is_terminate evs = [] /\ filter is_patch evs = [].
Proof.
  unfold calm. induction evs as [|ev evs IH]; simpl; [now split|].
  intros H. apply andb_true_iff in H. destruct H as [H1 H2].
  unfold calm_event in H1. apply negb_true_iff, orb_false_iff in H1.
  destruct H1 as [-> ->]. auto.
Qed.

Lemma calm_count_patch (evs : list event) :
  calm evs -> count is_patch evs = 0.
Proof.
  intros H. unfold count. now rewrite (proj2 (calm_filter H)).
Qed.

Lemma mem_In (k : string) (keys : list string) :
  mem k keys = true <-> In k keys.
Proof.
  unfold mem. rewrite existsb_exists. split.
  - intros (x & Hx & E). apply String.eqb_eq in E. now subst.
  - intros H. exists k. split; [assumption|apply String.eqb_refl].
Qed.

Lemma In_missing_keys (d : dict) (k : string) :
  In k (missing_keys d) <-> In k expected_keys /\ ~ In k (dict_keys d).
Proof.
  unfold missing_keys. rewrite filter_In, negb_true_iff.
  rewrite <- (mem_In k (dict_keys d)).
  destruct (mem k (dict_keys d)); intuition congruence.
Qed.

Lemma no_missing_all_keys (d : dict) :
  missing_keys d = [] <-> has_all_keys d.
Proof.
  unfold has_all_keys. split.
  - intros H k Hk. apply mem_In.
    destruct (mem k (dict_keys d)) eqn:E; [reflexivity|].
    assert (In k (missing_keys d)) as Hin.
    { apply In_missing_keys. split; [assumption|].
      rewrite <- mem_In. congruence. }
    rewrite H in Hin. contradiction.
  - intros H. destruct (missing_keys d) as [|k l] eqn:E; [reflexivity|].
    assert (In k (missing_keys d)) as Hin by (rewrite E; now left).
    apply In_missing_keys in Hin. destruct Hin as [H1 H2].
    now apply H in H1.
Qed.

Lemma length_missing_keys (d : dict) :
  Nat.eqb (length (missing_keys d)) 0 = true <-> has_all_keys d.
Proof.
  rewrite Nat.eqb_eq, length_zero_iff_nil. apply no_missing_all_keys.
Qed.

Lemma forallb_all_zero (d : dict) :
  forallb (fun k => eq_zero (dict_get d k)) expected_keys = true
  <-> all_zero d.
Proof. unfold all_zero. apply forallb_forall. Qed.

Lemma forallb_some_nonzero (d : dict) :
  forallb (fun k => eq_zero (dict_get d k)) expected_keys = false
  <-> some_nonzero d.
Proof.
  unfold some_nonzero. split.
  - intros H.
    assert (existsb (fun k => negb (eq_zero (dict_get d k))) expected_keys
            = true) as Hex.
    { revert H. generalize expected_keys.
      induction l as [|a l IH]; simpl; [discriminate|].
      destruct (eq_zero (dict_get d a)); simpl; auto. }
    apply existsb_exists in Hex. destruct Hex as (k & Hk & E).
    exists k. split; [assumption|]. now apply negb_true_iff.
  - intros (k & Hk & E).
    destruct (forallb _ expected_keys) eqn:F; [|reflexivity].
    rewrite forallb_forall in F. specialize (F k Hk). congruence.
Qed.

Lemma some_nonzero_not_all_zero (d : dict) :
  some_nonzero d <-> ~ all_zero d.
Proof.
  rewrite <- forallb_some_nonzero, <- forallb_all_zero.
  destruct (forallb _ expected_keys); intuition congruence.
Qed.

(** A table whose objects start with a brace gives a [json.loads] that
    meets the assumption. *)
Lemma loads_from_brace (table : list (string * value)) :
  Sample.table_braces table = true ->
  loads_object_brace (Sample.loads_from table).
Proof.
  unfold Sample.table_braces, loads_object_brace, Sample.loads_from.
  intros H s d E.
  destruct (find _ table) as [[k v]|] eqn:F; [|discriminate].
  apply find_some in F. destruct F as [Hin Hk]. simpl in Hk, E.
  apply String.eqb_eq in Hk. subst k.
  rewrite forallb_forall in H. specialize (H _ Hin). simpl in H.
  inversion E. subst v. exact H.
Qed.

(** ** Running the script, piece by piece *)

Ltac unfold_monad :=
  cbv [bind ret raise lift call emit log sleep set_client set_session_id
       get_client get_session_id try_except try_finally].

Ltac same_state :=
  unfold add_events; cbn [client session_id trace];
  rewrite <- ?app_assoc; cbn [app]; reflexivity.

(** Case analysis on the innermost scrutinee of the goal. *)
Ltac split_match :=
  match goal with
  | |- context [match ?x with _ => _ end] =>
      lazymatch x with
      | context [match _ with _ => _ end] => fail
      | _ => destruct x eqn:?
      end
  end.

Section Runs.

Variable json_loads : string -> exn + value.
Variable w : environment.

Let attempt := attempt_body json_loads w.
Let fetch := fetch_occupancy_from_cloudbeds json_loads w.
Let loop_end : M (option dict) :=
  raise (RuntimeError "Failed to obtain occupancy data after retries.").

(** What is parsed as an object started with a brace and was not taken
    for the sentinel. *)
Lemma parses_brace (raw : string) (d : dict) :
  loads_object_brace json_loads ->
  parses_as json_loads raw d ->
  PyStr.startswith (PyStr.strip raw) "{" = true.
Proof.
  intros Hj Hp. apply Hj in Hp.
  now rewrite PyStrFacts.lstrip_json_strip in Hp.
Qed.

Lemma parses_not_sentinel (raw : string) (d : dict) :
  loads_object_brace json_loads ->
  parses_as json_loads raw d ->
  ~ is_sentinel raw.
Proof.
  intros Hj Hp Hs. apply (parses_brace Hj) in Hp.
  apply PyStrFacts.brace_not_sentinel in Hp.
  unfold is_sentinel in Hs. rewrite Hs in Hp. discriminate.
Qed.

(** *** One attempt *)

Lemma attempt_sentinel_retry wid n raw s :
  answers w n raw -> is_sentinel raw -> n <> max_attempts ->
  attempt wid n s =
    (inr Continue,
     add_events s
       (attempt_events (session_id s) wid n raw ++
        [ Log WARNING
            "Attempt %d: model returned NO_DATA - Occupancy widget not visible."
            [LInt (Z.of_nat n)];
          Sleep 5 ])).
Proof.
  unfold answers, is_sentinel, PyStr.normalized. intros Ha Hs Hn.
  unfold attempt, attempt_body. unfold_monad. rewrite Ha.
  cbn [pr_error pr_data client session_id trace].
  rewrite Hs. cbn [String.eqb Ascii.eqb Bool.eqb].
  apply Nat.eqb_neq in Hn. rewrite Hn. same_state.
Qed.

Lemma attempt_sentinel_last wid raw s :
  answers w max_attempts raw -> is_sentinel raw ->
  attempt wid max_attempts s =
    (inr (Return None),
     add_events s
       (attempt_events (session_id s) wid max_attempts raw ++
        [ Log WARNING
            "Attempt %d: model returned NO_DATA - Occupancy widget not visible."
            [LInt (Z.of_nat max_attempts)];
          Log WARNING
            "Maximum attempts reached with NO_DATA. Returning None and skipping update."
            [] ])).
Proof.
  unfold answers, is_sentinel, PyStr.normalized. intros Ha Hs.
  unfold attempt, attempt_body. unfold_monad. rewrite Ha.
  cbn [pr_error pr_data client session_id trace].
  rewrite Hs. cbn [String.eqb Ascii.eqb Bool.eqb Nat.eqb max_attempts].
  same_state.
Qed.

Lemma attempt_not_json wid n raw s :
  answers w n raw -> ~ is_sentinel raw ->
  PyStr.startswith (PyStr.strip raw) "{" = false ->
  attempt wid n s =
    (inl (RuntimeError
            ("Model did not return JSON; got: " ++ PyStr.strip raw)%string),
     add_events s (attempt_events (session_id s) wid n raw)).
Proof.
  unfold answers, is_sentinel. intros Ha Hs Hb.
  apply String.eqb_neq in Hs.
  unfold attempt, attempt_body. unfold_monad. rewrite Ha.
  cbn [pr_error pr_data client session_id trace].
  change (PyStr.strip (PyStr.strip_chars [PyStr.dquote; PyStr.squote]
                         (PyStr.strip raw))) with (PyStr.normalized raw).
  rewrite Hs, Hb. cbn [negb]. same_state.
Qed.

Lemma attempt_parsed wid n raw d s :
  answers w n raw -> ~ is_sentinel raw ->
  PyStr.startswith (PyStr.strip raw) "{" = true ->
  parses_as json_loads raw d ->
  attempt wid n s =
    let s' := add_events s (attempt_events (session_id s) wid n raw) in
    if negb (Nat.eqb (length (missing_keys d)) 0) then
      (inl (ValueErrorMissing (missing_keys d)), s')
    else if forallb (fun k => eq_zero (dict_get d k)) expected_keys then
      if Nat.eqb n max_attempts then
        (inl (RuntimeError
           "Model returned 0 for all occupancy fields after multiple attempts."),
         add_events s'
           [ Log WARNING
               "Attempt %d: model returned 0 for all occupancy fields. This is likely incorrect; will retry if attempts remain."
               [LInt (Z.of_nat n)] ])
      else
        (inr Continue,
         add_events s'
           [ Log WARNING
               "Attempt %d: model returned 0 for all occupancy fields. This is likely incorrect; will retry if attempts remain."
               [LInt (Z.of_nat n)];
             Sleep 5 ])
    else (inr (Return (Some d)), s').
Proof.
  unfold answers, is_sentinel, parses_as. intros Ha Hs Hb Hp.
  apply String.eqb_neq in Hs.
  unfold attempt, attempt_body. unfold_monad. rewrite Ha.
  cbn [pr_error pr_data client session_id trace].
  change (PyStr.strip (PyStr.strip_chars [PyStr.dquote; PyStr.squote]
                         (PyStr.strip raw))) with (PyStr.normalized raw).
  rewrite Hs, Hb. cbn [negb]. rewrite Hp.
  fold (missing_keys d). cbv zeta.
  repeat split_match; same_state.
Qed.


Lemma attempt_all_zero_retry wid n raw d s :
  loads_object_brace json_loads ->
  answers w n raw -> parses_as json_loads raw d ->
  has_all_keys d -> all_zero d -> n <> max_attempts ->
  attempt wid n s =
    (inr Continue,
     add_events s
       (attempt_events (session_id s) wid n raw ++
        [ Log WARNING
            "Attempt %d: model returned 0 for all occupancy fields. This is likely incorrect; will retry if attempts remain."
            [LInt (Z.of_nat n)];
          Sleep 5 ])).
Proof.
  intros Hj Ha Hp Hk Hz Hn.
  rewrite (attempt_parsed wid s Ha (parses_not_sentinel Hj Hp)
             (parses_brace Hj Hp) Hp).
  cbv zeta. apply length_missing_keys in Hk. rewrite Hk.
  apply forallb_all_zero in Hz. rewrite Hz.
  apply Nat.eqb_neq in Hn. rewrite Hn. cbn [negb].
  now rewrite add_events_app.
Qed.

Lemma attempt_all_zero_last wid raw d s :
  loads_object_brace json_loads ->
  answers w max_attempts raw -> parses_as json_loads raw d ->
  has_all_keys d -> all_zero d ->
  attempt wid max_attempts s =
    (inl (RuntimeError
       "Model returned 0 for all occupancy fields after multiple attempts."),
     add_events s
       (attempt_events (session_id s) wid max_attempts raw ++
        [ Log WARNING
            "Attempt %d: model returned 0 for all occupancy fields. This is likely incorrect; will retry if attempts remain."
            [LInt (Z.of_nat max_attempts)] ])).
Proof.
  intros Hj Ha Hp Hk Hz.
  rewrite (attempt_parsed wid s Ha (parses_not_sentinel Hj Hp)
             (parses_brace Hj Hp) Hp).
  cbv zeta. apply length_missing_keys in Hk. rewrite Hk.
  apply forallb_all_zero in Hz. rewrite Hz.
  cbn [negb Nat.eqb max_attempts].
  now rewrite add_events_app.
Qed.

Lemma attempt_accepts wid n raw d s :
  loads_object_brace json_loads ->
  answers w n raw -> parses_as json_loads raw d ->
  has_all_keys d -> some_nonzero d ->
  attempt wid n s =
    (inr (Return (Some d)),
     add_events s (attempt_events (session_id s) wid n raw)).
Proof.
  intros Hj Ha Hp Hk Hz.
  rewrite (attempt_parsed wid s Ha (parses_not_sentinel Hj Hp)
             (parses_brace Hj Hp) Hp).
  cbv zeta. apply length_missing_keys in Hk. rewrite Hk.
  apply forallb_some_nonzero in Hz. rewrite Hz. reflexivity.
Qed.

Lemma attempt_missing wid n raw d s :
  loads_object_brace json_loads ->
  answers w n raw -> parses_as json_loads raw d ->
  ~ has_all_keys d ->
  attempt wid n s =
    (inl (ValueErrorMissing (missing_keys d)),
     add_events s (attempt_events (session_id s) wid n raw)).
Proof.
  intros Hj Ha Hp Hk.
  rewrite (attempt_parsed wid s Ha (parses_not_sentinel Hj Hp)
             (parses_brace Hj Hp) Hp).
  cbv zeta. rewrite <- length_missing_keys in Hk.
  destruct (Nat.eqb (length (missing_keys d)) 0); [now elim Hk|].
  reflexivity.
Qed.

(** A retried answer, on an attempt that is not the last: one query, one
    wait, and the loop goes on. *)
Lemma attempt_retried wid n raw s :
  loads_object_brace json_loads ->
  answers w n raw -> retried json_loads raw -> n <> max_attempts ->
  exists evs,
    attempt wid n s = (inr Continue, add_events s evs) /\
    calm evs /\ count is_page_query evs = 1 /\ count is_sleep evs = 1.
Proof.
  intros Hj Ha [Hs|(d & Hp & Hk & Hz)] Hn.
  - eexists. split; [apply (attempt_sentinel_retry wid s Ha Hs Hn)|].
    repeat split.
  - eexists. split; [apply (attempt_all_zero_retry wid s Hj Ha Hp Hk Hz Hn)|].
    repeat split.
Qed.

(** Whatever the answer, an attempt makes one query, requests no
    termination and no PATCH, and returns a reading only if it accepts
    it. *)
Lemma attempt_inv wid n s r s' :
  attempt wid n s = (r, s') ->
  exists evs,
    s' = add_events s evs /\ calm evs /\ count is_page_query evs = 1 /\
    forall d, r = inr (Return (Some d)) -> accepted_at json_loads w n d.
Proof.
  unfold attempt, attempt_body. unfold_monad.
  cbn [pr_error pr_data client session_id trace].
  repeat split_match.
  all: intros H; inversion H; subst; clear H.
  all: eexists; split; [same_state|].
  all: split; [reflexivity|].
  all: split; [reflexivity|].
  all: try (intros ? ?; discriminate).
  intros d0 E. inversion E. subst d0.
  destruct p as [perr pdata]. simpl in *. subst.
  exists s0. unfold answers, is_sentinel, parses_as.
  repeat split; try assumption.
  - now apply String.eqb_neq.
  - now apply negb_false_iff.
  - apply length_missing_keys. now apply negb_false_iff.
  - now apply forallb_some_nonzero.
Qed.

(** *** The loop *)

(** Attempts that ask the loop to go on are passed over. *)
Lemma loop_passes wid m :
  forall a k s,
    (forall j s0, a <= j < a + m ->
       exists evs,
         attempt wid j s0 = (inr Continue, add_events s0 evs) /\
         calm evs /\ count is_page_query evs = 1 /\ count is_sleep evs = 1) ->
    exists evs,
      for_each (seq a (m + k)) (attempt wid) loop_end s =
        for_each (seq (a + m) k) (attempt wid) loop_end (add_events s evs) /\
      calm evs /\ count is_page_query evs = m /\ count is_sleep evs = m.
Proof.
  induction m as [|m IH]; intros a k s Hall.
  - exists []. rewrite Nat.add_0_r, add_events_nil. now repeat split.
  - destruct (Hall a s ltac:(lia)) as (e1 & E1 & C1 & Q1 & S1).
    destruct (IH (S a) k (add_events s e1)) as (e2 & E2 & C2 & Q2 & S2).
    { intros j s0 Hjr. apply Hall. lia. }
    exists (e1 ++ e2). split; [|split; [|split]].
    + cbn [Nat.add seq for_each]. unfold bind at 1. rewrite E1.
      rewrite E2, add_events_app. now rewrite Nat.add_succ_r.
    + now apply calm_app.
    + rewrite count_app. lia.
    + rewrite count_app. lia.
Qed.

Lemma loop_inv wid ns :
  forall s r s',
    for_each ns (attempt wid) loop_end s = (r, s') ->
    exists evs,
      s' = add_events s evs /\ calm evs /\
      count is_page_query evs <= length ns /\
      forall d, r = inr (Some d) ->
                exists n, In n ns /\ accepted_at json_loads w n d.
Proof.
  induction ns as [|n ns IH]; intros s r s' H.
  - cbn in H. inversion H. subst. exists [].
    rewrite add_events_nil. repeat split; [unfold count; simpl; lia|discriminate].
  - cbn [for_each] in H. unfold bind at 1 in H.
    destruct (attempt wid n s) as [c s1] eqn:E1.
    apply attempt_inv in E1. destruct E1 as (e1 & -> & C1 & Q1 & A1).
    destruct c as [e|[|a]].
    + inversion H. subst. exists e1. repeat split; try assumption.
      * simpl. lia.
      * discriminate.
    + apply IH in H. destruct H as (e2 & -> & C2 & Q2 & A2).
      exists (e1 ++ e2). rewrite add_events_app. split; [reflexivity|].
      split; [now apply calm_app|]. split.
      * rewrite count_app. simpl. lia.
      * intros d Hd. destruct (A2 d Hd) as (n' & Hin & Hacc).
        exists n'. split; [now right|assumption].
    + cbv [ret] in H. inversion H. subst. exists e1.
      repeat split; try assumption.
      * simpl. lia.
      * intros d Hd. inversion Hd. subst a. exists n.
        split; [now left|]. now apply A1.
Qed.


(** *** The body of the [try] *)

Lemma try_body_setup sid wid s :
  setup_passes w sid wid ->
  fetch_try_body json_loads w s =
    for_each (seq 1 max_attempts) (attempt wid) loop_end
      {| client := true; session_id := sid;
         trace := trace s ++ setup_events w sid wid |}.
Proof.
  intros (_ & Hs & Hp & Hw).
  unfold fetch_try_body. unfold_monad. rewrite Hs.
  cbn [session_errors session_data client session_id trace].
  rewrite Hp, Hw. cbn [client session_id trace].
  rewrite <- !app_assoc. reflexivity.
Qed.

Lemma try_body_inv s r s' :
  session_id s = None ->
  fetch_try_body json_loads w s = (r, s') ->
  exists evs,
    trace s' =
      trace s ++ ClientNew (AIRTOP_API_KEY w)
                 :: SessionsCreate CLOUDBEDS_PROFILE_NAME 10 :: evs /\
    calm evs /\
    count is_page_query evs <= max_attempts /\
    client s' = true /\
    session_id s' = session_of w /\
    forall d, r = inr (Some d) ->
              exists n, 1 <= n <= max_attempts /\
                        accepted_at json_loads w n d.
Proof.
  intros Hnone. unfold fetch_try_body, session_of. unfold_monad.
  cbn [client session_id trace].
  repeat split_match.
  all: try (intros H; inversion H; subst; clear H;
            cbn [client session_id trace]; rewrite <- ?app_assoc;
            cbn [app]; eexists; split; [reflexivity|];
            repeat split; try assumption; try discriminate;
            unfold count, max_attempts; simpl; lia).
  intros H. apply loop_inv in H. destruct H as (evs & -> & C & Q & A).
  cbn [add_events client session_id trace]. rewrite <- !app_assoc.
  cbn [app].
  eexists. split; [reflexivity|]. split; [|split; [|repeat split]].
  - unfold calm in *. simpl. assumption.
  - unfold count in *. simpl. rewrite length_seq in Q. exact Q.
  - intros d Hd. destruct (A d Hd) as (n & Hin & Hacc).
    exists n. split; [|assumption]. apply in_seq in Hin. lia.
Qed.

(** *** The [except] and [finally] clauses *)

Lemma handlers_run e s :
  exists evs,
    fetch_handlers e s = (inl e, add_events s evs) /\
    calm evs /\ count is_page_query evs = 0 /\ count is_sleep evs = 0.
Proof.
  destruct e; unfold fetch_handlers; unfold_monad;
    (eexists; split; [same_state|now repeat split]) ||
    (exists []; rewrite add_events_nil; now repeat split).
Qed.

Lemma finally_run s :
  fetch_finally w s =
    (inr tt, add_events s (cleanup_events w (client s) (session_id s))).
Proof.
  unfold fetch_finally, cleanup_events. unfold_monad.
  destruct (client s), (session_id s) as [sid|];
    rewrite ?add_events_nil; try reflexivity.
  cbn [client session_id trace].
  destruct (sessions_terminate w) as [e|[]]; same_state.
Qed.

Lemma cleanup_counts c sid :
  count is_patch (cleanup_events w c sid) = 0 /\
  count is_page_query (cleanup_events w c sid) = 0 /\
  count is_sleep (cleanup_events w c sid) = 0 /\
  filter is_terminate (cleanup_events w c sid) =
    match c, sid with
    | true, Some i => [SessionsTerminate i]
    | _, _ => []
    end.
Proof.
  unfold cleanup_events.
  destruct c, sid; try (now repeat split).
  destruct (sessions_terminate w); now repeat split.
Qed.

(** *** The whole extraction *)

(** Once the key check has passed, the outcome of the extraction is the
    outcome of the body of its [try]; the clauses only add events. *)
Lemma fetch_run r s1 :
  airtop_key_passes w ->
  fetch_try_body json_loads w initial = (r, s1) ->
  exists evs,
    fetch initial =
      (r, add_events s1
            (evs ++ cleanup_events w (client s1) (session_id s1))) /\
    calm evs /\ count is_page_query evs = 0 /\ count is_sleep evs = 0.
Proof.
  unfold airtop_key_passes. intros Hk Hb.
  unfold fetch, fetch_occupancy_from_cloudbeds. rewrite Hk.
  unfold try_finally, try_except, bind at 1 2, set_client, set_session_id.
  cbn [client session_id trace].
  change {| client := false; session_id := None; trace := trace initial |}
    with initial.
  rewrite Hb.
  destruct r as [e|a].
  - destruct (handlers_run e s1) as (evs & -> & C & Q & S).
    rewrite finally_run. cbn [add_events client session_id].
    exists evs. rewrite <- add_events_app. now repeat split.
  - rewrite finally_run. exists []. now repeat split.
Qed.

Lemma fetch_key_fails s :
  ~ airtop_key_passes w ->
  fetch s = (inl (RuntimeError "AIRTOP_API_KEY is not set"), s).
Proof.
  unfold airtop_key_passes, fetch, fetch_occupancy_from_cloudbeds.
  intros Hk. destruct (_ || _); [reflexivity|now elim Hk].
Qed.

(** *** The update *)

Lemma update_run occupancy s :
  airtable_key_passes w ->
  update_airtable w occupancy s =
    (patch_outcome
       (requests_patch w airtable_url
          (airtable_headers (AIRTABLE_API_KEY w))
          (VDict (airtable_payload occupancy))),
     add_events s (update_events w occupancy)).
Proof.
  unfold airtable_key_passes. intros Hk.
  unfold update_airtable, update_events, patch_outcome. rewrite Hk.
  unfold_monad. cbn [client session_id trace].
  change (dict_get (airtable_payload occupancy) "fields")
    with (VDict (airtable_fields occupancy)).
  destruct (requests_patch w _ _ _) as [e|resp]; [same_state|].
  unfold raise_for_status.
  destruct (_ && _); same_state.
Qed.

Lemma update_key_fails occupancy s :
  ~ airtable_key_passes w ->
  update_airtable w occupancy s =
    (inl (RuntimeError "AIRTABLE_API_KEY is not set"), s).
Proof.
  unfold airtable_key_passes, update_airtable.
  intros Hk. destruct (_ || _); [reflexivity|now elim Hk].
Qed.


(** *** Main *)

Lemma main_run :
  main json_loads w initial =
    match fetch initial with
    | (inl e, s) => (inl e, s)
    | (inr None, s) =>
        (inr tt,
         add_events s
           [ Log WARNING
               "No occupancy data available; skipping Airtable update this run."
               [] ])
    | (inr (Some d), s) =>
        update_airtable w d
          (add_events s
             [ Log INFO "Occupancy from Cloudbeds: %s" [LValue (VDict d)] ])
    end.
Proof.
  unfold main, fetch, bind at 1.
  destruct (fetch_occupancy_from_cloudbeds json_loads w initial)
    as [[e|[d|]] s]; reflexivity.
Qed.

(** *** The extraction, decided at attempt [n] *)

(** When the setup goes through, the attempts before [n] ask the loop to
    go on and attempt [n] ends it with [r], the extraction ends with [r]
    after [n] queries and [n] waits (the settle delay and one backoff for
    each earlier attempt), and its only termination request is the one
    for the session it holds. *)
Lemma fetch_decided n sid wid (r : exn + option dict) :
  setup_passes w sid wid ->
  1 <= n <= max_attempts ->
  (forall j s, 1 <= j < n ->
     exists evs,
       attempt wid j s = (inr Continue, add_events s evs) /\
       calm evs /\ count is_page_query evs = 1 /\ count is_sleep evs = 1) ->
  (forall s,
     exists evs,
       attempt wid n s = (decided r, add_events s evs) /\
       calm evs /\ count is_page_query evs = 1 /\ count is_sleep evs = 0) ->
  exists s',
    fetch initial = (r, s') /\
    count is_page_query (trace s') = n /\
    count is_sleep (trace s') = n /\
    count is_patch (trace s') = 0 /\
    filter is_terminate (trace s') =
      match sid with Some i => [SessionsTerminate i] | None => [] end.
Proof.
  intros Hsetup Hn Hbefore Hat.
  pose proof Hsetup as (Hkey & _).
  pose proof (try_body_setup initial Hsetup) as Hbody.
  replace max_attempts with ((n - 1) + S (max_attempts - n)) in Hbody by lia.
  destruct (@loop_passes wid (n - 1) 1 (S (max_attempts - n))
              {| client := true; session_id := sid;
                 trace := trace initial ++ setup_events w sid wid |})
    as (e1 & E1 & C1 & Q1 & S1).
  { intros j s0 Hj. apply Hbefore. lia. }
  rewrite E1 in Hbody. clear E1.
  replace (1 + (n - 1)) with n in Hbody by lia.
  cbn [seq for_each] in Hbody. unfold bind at 1 in Hbody.
  match type of Hbody with
  | context [attempt wid n ?st] =>
      destruct (Hat st) as (e2 & E2 & C2 & Q2 & S2)
  end.
  rewrite E2 in Hbody. clear E2.
  assert (exists s1,
             fetch_try_body json_loads w initial = (r, s1) /\
             client s1 = true /\ session_id s1 = sid /\
             trace s1 = setup_events w sid wid ++ e1 ++ e2)
    as (s1 & Hs1 & Hc & Hi & Ht).
  { destruct r as [e|a]; cbn [decided] in Hbody; cbv [ret] in Hbody;
      eexists; (split; [exact Hbody|]);
      cbn [add_events client session_id trace];
      rewrite <- app_assoc; now repeat split. }
  destruct (fetch_run Hkey Hs1) as (e3 & E3 & C3 & Q3 & S3).
  eexists. split; [exact E3|].
  cbn [add_events trace]. rewrite Hc, Hi, Ht.
  destruct (cleanup_counts true sid) as (P4 & Q4 & S4 & T4).
  rewrite !count_app, !filter_app.
  rewrite Q1, Q2, Q3, Q4, S1, S2, S3, S4, P4.
  rewrite (calm_count_patch C1), (calm_count_patch C2),
    (calm_count_patch C3).
  rewrite (proj1 (calm_filter C1)), (proj1 (calm_filter C2)),
    (proj1 (calm_filter C3)), T4.
  unfold count. cbn [setup_events filter is_page_query is_sleep is_patch
                     is_terminate length app].
  repeat split; lia.
Qed.

(** A reading is returned only if some attempt accepted it. *)
Lemma fetch_returns_accepted d :
  fst (fetch initial) = inr (Some d) ->
  exists n, 1 <= n <= max_attempts /\ accepted_at json_loads w n d.
Proof.
  intros H.
  destruct (PyStr.is_empty (AIRTOP_API_KEY w)
            || (AIRTOP_API_KEY w =? "AIRTOP_API_KEY")%string) eqn:Hk.
  - unfold fetch, fetch_occupancy_from_cloudbeds in H. rewrite Hk in H.
    discriminate.
  - destruct (fetch_try_body json_loads w initial) as [r s1] eqn:Hb.
    destruct (fetch_run Hk Hb) as (evs & E & _).
    rewrite E in H. cbn [fst] in H. subst r.
    apply try_body_inv in Hb; [|reflexivity].
    destruct Hb as (e & _ & _ & _ & _ & _ & A). now apply A.
Qed.

Lemma update_events_patch occupancy :
  filter is_patch (update_events w occupancy) =
    [ Patch airtable_url (airtable_headers (AIRTABLE_API_KEY w))
            (VDict (airtable_payload occupancy)) ].
Proof.
  unfold update_events. rewrite filter_app.
  destruct (requests_patch w _ _ _) as [e|resp]; [reflexivity|].
  destruct (raise_for_status resp); reflexivity.
Qed.

End Runs.

(** The extraction does not look at the answer to the termination
    request. *)
Lemma fetch_ignores_terminate json_loads w answer :
  fst (fetch_occupancy_from_cloudbeds json_loads (with_terminate w answer)
         initial)
  = fst (fetch_occupancy_from_cloudbeds json_loads w initial).
Proof.
  destruct (PyStr.is_empty (AIRTOP_API_KEY w)
            || (AIRTOP_API_KEY w =? "AIRTOP_API_KEY")%string) eqn:Hk.
  - unfold fetch_occupancy_from_cloudbeds.
    change (AIRTOP_API_KEY (with_terminate w answer))
      with (AIRTOP_API_KEY w).
    rewrite Hk. reflexivity.
  - destruct (fetch_try_body json_loads w initial) as [r s1] eqn:Hb.
    destruct (@fetch_run json_loads w r s1 Hk Hb) as (evs & E & _).
    rewrite E.
    assert (airtop_key_passes (with_terminate w answer)) as Hk' by exact Hk.
    assert (fetch_try_body json_loads (with_terminate w answer) initial
            = (r, s1)) as Hb' by exact Hb.
    destruct (@fetch_run json_loads _ r s1 Hk' Hb') as (evs' & E' & _).
    rewrite E'. reflexivity.
Qed.

(** ** The claims *)

(** Earlier attempts that were retried ask the loop to go on. *)
Lemma retried_before json_loads w n wid :
  loads_object_brace json_loads ->
  n <= max_attempts ->
  (forall j, 1 <= j < n ->
             exists raw, answers w j raw /\ retried json_loads raw) ->
  forall j s, 1 <= j < n ->
    exists evs,
      attempt_body json_loads w wid j s = (inr Continue, add_events s evs) /\
      calm evs /\ count is_page_query evs = 1 /\ count is_sleep evs = 1.
Proof.
  intros Hj Hn Hall j s Hr.
  destruct (Hall j Hr) as (raw & Ha & Hret).
  apply (attempt_retried wid s Hj Ha Hret). lia.
Qed.

(** C1. When an attempt is answered by a JSON object that has the four
    required keys and a value that is not zero, the extraction returns
    that very object, and the run then sends exactly one PATCH, whose body
    is [fields] with the four values under the four Airtable field
    names. *)
Theorem accepted_reading_is_passed_on json_loads w n raw d :
  loads_object_brace json_loads ->
  attempt_made json_loads w n ->
  answers w n raw ->
  parses_as json_loads raw d ->
  has_all_keys d ->
  some_nonzero d ->
  fst (fetch_occupancy_from_cloudbeds json_loads w initial) = inr (Some d) /\
  count is_patch
    (trace (snd (fetch_occupancy_from_cloudbeds json_loads w initial))) = 0 /\
  (airtable_key_passes w ->
   filter is_patch (trace (snd (main json_loads w initial))) =
     [ Patch airtable_url (airtable_headers (AIRTABLE_API_KEY w))
         (VDict
            [ ("fields",
               VDict
                 [ ("Available Units", dict_get d "available_units");
                   ("Booked Units", dict_get d "booked_units");
                   ("Out of Service", dict_get d "out_of_service");
                   ("Blocked Dates", dict_get d "blocked_dates") ]) ]) ]).
Proof.
  intros Hj ((sid & wid & Hsetup) & Hn & Hbefore) Ha Hp Hk Hz.
  destruct (@fetch_decided json_loads w n sid wid (inr (Some d)) Hsetup Hn)
    as (s' & E & Q & S & P & T).
  - apply retried_before; [assumption|lia|assumption].
  - intros s. eexists. split; [apply (attempt_accepts wid s Hj Ha Hp Hk Hz)|].
    now repeat split.
  - rewrite E. cbn [fst snd]. repeat split; [exact P|].
    intros Hkey. rewrite main_run, E, (update_run _ _ Hkey).
    cbn [snd add_events trace]. rewrite !filter_app, update_events_patch.
    unfold count in P. apply length_zero_iff_nil in P. rewrite P.
    reflexivity.
Qed.

Lemma accepted_reading_is_passed_on_witness :
  fst (fetch_occupancy_from_cloudbeds Sample.json_loads
         (Sample.env "NO_DATA" Sample.reading_text "" (inr tt) 200) initial)
  = inr (Some Sample.reading) /\
  filter is_patch
    (trace (snd (main Sample.json_loads
                   (Sample.env "NO_DATA" Sample.reading_text "" (inr tt) 200)
                   initial))) =
    [ Patch airtable_url (airtable_headers "pat-live")
        (VDict
           [ ("fields",
              VDict
                [ ("Available Units", VInt 28); ("Booked Units", VInt 8);
                  ("Out of Service", VInt 3); ("Blocked Dates", VInt 2) ]) ]) ].
Proof.
  destruct (@accepted_reading_is_passed_on Sample.json_loads
              (Sample.env "NO_DATA" Sample.reading_text "" (inr tt) 200)
              2 Sample.reading_text Sample.reading) as (R & _ & U).
  - apply loads_from_brace. reflexivity.
  - split; [|split].
    + exists (Some "sess-1"), "win-1". repeat split.
    + unfold max_attempts. lia.
    + intros j Hj. assert (j = 1) by lia. subst j.
      exists "NO_DATA". split; [reflexivity|]. left. reflexivity.
  - reflexivity.
  - reflexivity.
  - apply length_missing_keys. reflexivity.
  - exists "available_units". split; [now left|reflexivity].
  - split; [exact R|]. apply U. reflexivity.
Defined.

(** C2. When the setup goes through and every one of the three attempts
    is answered by the sentinel (after stripping whitespace and quotes),
    the extraction returns [None] without raising, the run sends no PATCH
    and ends normally, after all three queries and the warning that the
    update is skipped. *)
Theorem sentinel_throughout_skips_update json_loads w sid wid :
  setup_passes w sid wid ->
  (forall n, 1 <= n <= max_attempts ->
             exists raw, answers w n raw /\ is_sentinel raw) ->
  fst (fetch_occupancy_from_cloudbeds json_loads w initial) = inr None /\
  fst (main json_loads w initial) = inr tt /\
  count is_patch (trace (snd (main json_loads w initial))) = 0 /\
  count is_page_query (trace (snd (main json_loads w initial)))
    = max_attempts /\
  In (Log WARNING
        "No occupancy data available; skipping Airtable update this run." [])
     (trace (snd (main json_loads w initial))).
Proof.
  intros Hsetup Hall.
  destruct (@fetch_decided json_loads w max_attempts sid wid (inr None) Hsetup)
    as (s' & E & Q & S & P & T).
  - unfold max_attempts. lia.
  - intros j s Hr. destruct (Hall j) as (raw & Ha & Hs); [lia|].
    eexists. split; [apply (attempt_sentinel_retry json_loads wid s Ha Hs)|].
    + lia.
    + now repeat split.
  - intros s. destruct (Hall max_attempts) as (raw & Ha & Hs).
    { unfold max_attempts. lia. }
    eexists. split; [apply (attempt_sentinel_last json_loads wid s Ha Hs)|].
    now repeat split.
  - rewrite main_run, E. cbn [fst snd add_events trace].
    rewrite !count_app, P, Q.
    repeat split; try (unfold count; simpl; lia).
    apply in_or_app. right. now left.
Qed.

Lemma sentinel_throughout_skips_update_witness :
  fst (main Sample.json_loads
         (Sample.env "NO_DATA" "'NO_DATA'" (Sample.q "NO_DATA")
            (inl (OtherException "boom")) 200)
         initial) = inr tt /\
  count is_patch
    (trace (snd (main Sample.json_loads
                   (Sample.env "NO_DATA" "'NO_DATA'" (Sample.q "NO_DATA")
                      (inl (OtherException "boom")) 200)
                   initial))) = 0.
Proof.
  destruct (@sentinel_throughout_skips_update Sample.json_loads
              (Sample.env "NO_DATA" "'NO_DATA'" (Sample.q "NO_DATA")
                 (inl (OtherException "boom")) 200)
              (Some "sess-1") "win-1") as (_ & R & P & _).
  - repeat split.
  - intros n Hn. unfold max_attempts in Hn.
    assert (n = 1 \/ n = 2 \/ n = 3) as [-> | [-> | ->]] by lia.
    + exists "NO_DATA". split; reflexivity.
    + exists "'NO_DATA'". split; reflexivity.
    + exists (Sample.q "NO_DATA"). split; reflexivity.
  - split; [exact R|exact P].
Defined.

(** C3. When the setup goes through and every one of the three attempts
    is answered by an object that has the four keys with all four values
    zero, each attempt before the last waits five seconds and asks for
    another attempt, and the extraction raises on the third attempt, after
    three queries. *)
Theorem all_zero_throughout_is_fatal_at_last json_loads w sid wid :
  loads_object_brace json_loads ->
  setup_passes w sid wid ->
  (forall n, 1 <= n <= max_attempts ->
     exists raw d,
       answers w n raw /\ parses_as json_loads raw d /\
       has_all_keys d /\ all_zero d) ->
  (forall n s, 1 <= n < max_attempts ->
     exists evs,
       attempt_body json_loads w wid n s =
         (inr Continue, add_events s (evs ++ [Sleep 5]))) /\
  fst (fetch_occupancy_from_cloudbeds json_loads w initial) =
    inl (RuntimeError
           "Model returned 0 for all occupancy fields after multiple attempts.") /\
  count is_page_query
    (trace (snd (fetch_occupancy_from_cloudbeds json_loads w initial)))
    = max_attempts.
Proof.
  intros Hj Hsetup Hall. split.
  - intros n s Hn. destruct (Hall n) as (raw & d & Ha & Hp & Hk & Hz); [lia|].
    rewrite (attempt_all_zero_retry wid s Hj Ha Hp Hk Hz); [|lia].
    eexists (attempt_events (session_id s) wid n raw ++ [_]).
    rewrite <- app_assoc. reflexivity.
  - destruct (@fetch_decided json_loads w max_attempts sid wid
                (inl (RuntimeError
                   "Model returned 0 for all occupancy fields after multiple attempts."))
                Hsetup)
      as (s' & E & Q & S & P & T).
    + unfold max_attempts. lia.
    + intros j s Hr.
      destruct (Hall j) as (raw & d & Ha & Hp & Hk & Hz); [lia|].
      eexists.
      split; [apply (attempt_all_zero_retry wid s Hj Ha Hp Hk Hz); lia|].
      now repeat split.
    + intros s. destruct (Hall max_attempts) as (raw & d & Ha & Hp & Hk & Hz).
      { unfold max_attempts. lia. }
      eexists.
      split; [apply (attempt_all_zero_last wid s Hj Ha Hp Hk Hz)|].
      now repeat split.
    + rewrite E. cbn [fst snd]. now split.
Qed.

Lemma all_zero_throughout_is_fatal_at_last_witness :
  fst (fetch_occupancy_from_cloudbeds Sample.json_loads
         (Sample.env Sample.zeros_text Sample.zeros_text Sample.zeros_text
            (inr tt) 200)
         initial) =
    inl (RuntimeError
           "Model returned 0 for all occupancy fields after multiple attempts.") /\
  count is_page_query
    (trace (snd (fetch_occupancy_from_cloudbeds Sample.json_loads
                   (Sample.env Sample.zeros_text Sample.zeros_text
                      Sample.zeros_text (inr tt) 200)
                   initial))) = 3.
Proof.
  destruct (@all_zero_throughout_is_fatal_at_last Sample.json_loads
              (Sample.env Sample.zeros_text Sample.zeros_text
                 Sample.zeros_text (inr tt) 200)
              (Some "sess-1") "win-1") as (_ & R & Q).
  - apply loads_from_brace. reflexivity.
  - repeat split.
  - intros n Hn. unfold max_attempts in Hn.
    exists Sample.zeros_text, Sample.zeros.
    assert (n = 1 \/ n = 2 \/ n = 3) as [-> | [-> | ->]] by lia.
    all: repeat split; try (apply length_missing_keys; reflexivity);
      try (apply forallb_all_zero; reflexivity).
  - split; [exact R|exact Q].
Defined.

(** C4. A malformed answer is fatal on the attempt that receives it,
    whichever attempt that is.  If the answer is not the sentinel and does
    not start with an opening brace once stripped, the extraction raises
    the error that names it; if it parses as an object that lacks one of
    the four keys, the extraction raises with the missing keys.  In both
    cases attempt [n] is the last query and no wait follows it: the run
    has made [n] queries and [n] waits, the settle delay and one backoff
    for each earlier attempt. *)
Theorem malformed_answer_is_fatal_at_once json_loads w n raw :
  loads_object_brace json_loads ->
  attempt_made json_loads w n ->
  answers w n raw ->
  (~ is_sentinel raw ->
   PyStr.startswith (PyStr.strip raw) "{" = false ->
   fst (fetch_occupancy_from_cloudbeds json_loads w initial) =
     inl (RuntimeError
            ("Model did not return JSON; got: " ++ PyStr.strip raw)%string) /\
   count is_page_query
     (trace (snd (fetch_occupancy_from_cloudbeds json_loads w initial))) = n /\
   count is_sleep
     (trace (snd (fetch_occupancy_from_cloudbeds json_loads w initial))) = n)
  /\
  (forall d,
     parses_as json_loads raw d ->
     ~ has_all_keys d ->
     fst (fetch_occupancy_from_cloudbeds json_loads w initial) =
       inl (ValueErrorMissing (missing_keys d)) /\
     missing_keys d <> [] /\
     count is_page_query
       (trace (snd (fetch_occupancy_from_cloudbeds json_loads w initial))) = n /\
     count is_sleep
       (trace (snd (fetch_occupancy_from_cloudbeds json_loads w initial))) = n).
Proof.
  intros Hj ((sid & wid & Hsetup) & Hn & Hbefore) Ha.
  pose proof (@retried_before json_loads w n wid Hj (proj2 Hn) Hbefore)
    as Hpass.
  split.
  - intros Hs Hb.
    destruct (@fetch_decided json_loads w n sid wid
                (inl (RuntimeError
                        ("Model did not return JSON; got: "
                         ++ PyStr.strip raw)%string))
                Hsetup Hn Hpass)
      as (s' & E & Q & S & _).
    + intros s. eexists.
      split; [apply (attempt_not_json json_loads wid s Ha Hs Hb)|].
      now repeat split.
    + rewrite E. now repeat split.
  - intros d Hp Hk.
    destruct (@fetch_decided json_loads w n sid wid
                (inl (ValueErrorMissing (missing_keys d)))
                Hsetup Hn Hpass)
      as (s' & E & Q & S & _).
    + intros s. eexists.
      split; [apply (attempt_missing wid s Hj Ha Hp Hk)|].
      now repeat split.
    + rewrite E. repeat split; try assumption.
      intros Hnil. apply Hk. now apply no_missing_all_keys.
Qed.

Lemma malformed_answer_is_fatal_at_once_witness :
  fst (fetch_occupancy_from_cloudbeds Sample.json_loads
         (Sample.env Sample.partial_text "" "" (inr tt) 200) initial) =
    inl (ValueErrorMissing ["blocked_dates"]) /\
  count is_page_query
    (trace (snd (fetch_occupancy_from_cloudbeds Sample.json_loads
                   (Sample.env Sample.partial_text "" "" (inr tt) 200)
                   initial))) = 1 /\
  count is_sleep
    (trace (snd (fetch_occupancy_from_cloudbeds Sample.json_loads
                   (Sample.env Sample.partial_text "" "" (inr tt) 200)
                   initial))) = 1.
Proof.
  destruct (@malformed_answer_is_fatal_at_once Sample.json_loads
              (Sample.env Sample.partial_text "" "" (inr tt) 200)
              1 Sample.partial_text) as (_ & H).
  - apply loads_from_brace. reflexivity.
  - split; [|split].
    + exists (Some "sess-1"), "win-1". repeat split.
    + unfold max_attempts. lia.
    + intros j Hj. lia.
  - reflexivity.
  - destruct (H Sample.partial) as (R & _ & Q & S).
    + reflexivity.
    + intros Hk. apply length_missing_keys in Hk. discriminate.
    + repeat split; assumption.
Defined.

(** C5, on the code: when [AIRTOP_API_KEY] is absent from the process
    environment, the key check of line 151 passes, because it compares
    with the name of the variable and not with the placeholder, and the
    run goes on to make a client with the placeholder and to ask for a
    session. *)
Theorem placeholder_key_passes_the_check json_loads w :
  getenv w "AIRTOP_API_KEY" = None ->
  airtop_key_passes w /\
  exists evs,
    trace (snd (fetch_occupancy_from_cloudbeds json_loads w initial)) =
      ClientNew "YOUR_API_KEY_HERE"
      :: SessionsCreate CLOUDBEDS_PROFILE_NAME 10 :: evs.
Proof.
  intros Hnone.
  assert (AIRTOP_API_KEY w = "YOUR_API_KEY_HERE") as Hkey
    by (unfold AIRTOP_API_KEY, getenv_default; now rewrite Hnone).
  assert (airtop_key_passes w) as Hpass
    by (unfold airtop_key_passes; now rewrite Hkey).
  split; [exact Hpass|].
  destruct (fetch_try_body json_loads w initial) as [r s1] eqn:Hb.
  destruct (@fetch_run json_loads w r s1 Hpass Hb) as (e & E & _).
  rewrite E. cbn [snd add_events trace].
  apply try_body_inv in Hb; [|reflexivity].
  destruct Hb as (e' & -> & _). rewrite Hkey. cbn [initial trace app].
  eexists. reflexivity.
Qed.

Lemma placeholder_key_passes_the_check_witness :
  airtop_key_passes Sample.env_unset /\
  exists evs,
    trace (snd (fetch_occupancy_from_cloudbeds Sample.json_loads
                  Sample.env_unset initial)) =
      ClientNew "YOUR_API_KEY_HERE"
      :: SessionsCreate CLOUDBEDS_PROFILE_NAME 10 :: evs.
Proof.
  apply (@placeholder_key_passes_the_check Sample.json_loads
           Sample.env_unset).
  reflexivity.
Defined.

(** The run with an empty process environment, in full: no error before
    the client and the session request. *)
Example unset_key_run :
  fetch_occupancy_from_cloudbeds Sample.json_loads Sample.env_unset initial =
    (inl (ApiError 401 "Unauthorized"),
     {| client := true; session_id := None;
        trace :=
          [ ClientNew "YOUR_API_KEY_HERE";
            SessionsCreate "Cloudbeds" 10;
            Log ERROR "Airtop API Error: %s - %s"
                [LInt 401; LStr "Unauthorized"] ] |}).
Proof. reflexivity. Qed.

(** C6, as the code has it: a reading is returned only when some attempt
    was answered by a text that is not the sentinel, starts with an
    opening brace once stripped, and parses as an object that has the four
    keys and a value that is not zero; that object is returned as parsed,
    whatever other keys it has and whatever the types of its values. *)
Theorem reading_comes_from_accepted_object json_loads w d :
  fst (fetch_occupancy_from_cloudbeds json_loads w initial) = inr (Some d) ->
  exists n,
    1 <= n <= max_attempts /\ accepted_at json_loads w n d.
Proof.
  apply fetch_returns_accepted.
Qed.

Lemma reading_comes_from_accepted_object_witness :
  exists n,
    1 <= n <= max_attempts /\
    accepted_at Sample.json_loads
      (Sample.env "NO_DATA" Sample.reading_text "" (inr tt) 200)
      n Sample.reading.
Proof.
  apply (@reading_comes_from_accepted_object Sample.json_loads
           (Sample.env "NO_DATA" Sample.reading_text "" (inr tt) 200)
           Sample.reading).
  reflexivity.
Defined.

(** C6 as stated fails: an object with a fifth key is returned as a
    reading, and so is an object whose values are strings; neither
    conforms to the wire contract. *)
Lemma nonconforming_objects_are_accepted :
  (fst (fetch_occupancy_from_cloudbeds Sample.json_loads
          (Sample.env Sample.extra_text "" "" (inr tt) 200) initial)
   = inr (Some Sample.extra) /\
   wire_conforming Sample.extra = false) /\
  (fst (fetch_occupancy_from_cloudbeds Sample.json_loads
          (Sample.env Sample.quoted_text "" "" (inr tt) 200) initial)
   = inr (Some Sample.quoted) /\
   wire_conforming Sample.quoted = false).
Proof. repeat split. Qed.

(** C7, as the code has it: the extraction requests termination once, for
    the session it holds, when the key check has passed and a session was
    created without errors and with an id; otherwise it requests none.
    The answer to the request does not change the outcome of the
    extraction, and a failure of the request is logged as a warning, the
    last event of the extraction. *)
Theorem termination_once_per_held_session json_loads w :
  (airtop_key_passes w ->
   filter is_terminate
     (trace (snd (fetch_occupancy_from_cloudbeds json_loads w initial))) =
     match session_of w with
     | Some sid => [SessionsTerminate sid]
     | None => []
     end) /\
  (~ airtop_key_passes w ->
   filter is_terminate
     (trace (snd (fetch_occupancy_from_cloudbeds json_loads w initial)))
   = []) /\
  (forall answer,
     fst (fetch_occupancy_from_cloudbeds json_loads (with_terminate w answer)
            initial)
     = fst (fetch_occupancy_from_cloudbeds json_loads w initial)) /\
  (forall e sid,
     airtop_key_passes w ->
     session_of w = Some sid ->
     sessions_terminate w = inl e ->
     exists evs,
       trace (snd (fetch_occupancy_from_cloudbeds json_loads w initial)) =
         evs ++ [ SessionsTerminate sid;
                  Log WARNING "Error terminating session: %s" [LExn e] ]).
Proof.
  split; [|split; [|split]].
  - intros Hk.
    destruct (fetch_try_body json_loads w initial) as [r s1] eqn:Hb.
    destruct (@fetch_run json_loads w r s1 Hk Hb) as (e & E & C & _).
    rewrite E. cbn [snd add_events trace].
    apply try_body_inv in Hb; [|reflexivity].
    destruct Hb as (e' & -> & C' & _ & -> & -> & _).
    destruct (cleanup_counts w true (session_of w)) as (_ & _ & _ & T).
    cbn [initial trace app filter is_terminate].
    rewrite !filter_app, T.
    rewrite (proj1 (calm_filter C)), (proj1 (calm_filter C')).
    reflexivity.
  - intros Hk. now rewrite (fetch_key_fails json_loads initial Hk).
  - apply fetch_ignores_terminate.
  - intros e sid Hk Hsess Hterm.
    destruct (fetch_try_body json_loads w initial) as [r s1] eqn:Hb.
    destruct (@fetch_run json_loads w r s1 Hk Hb) as (e1 & E & _).
    rewrite E. cbn [snd add_events trace].
    apply try_body_inv in Hb; [|reflexivity].
    destruct Hb as (e' & _ & _ & _ & -> & -> & _).
    rewrite Hsess. unfold cleanup_events. rewrite Hterm.
    exists (trace s1 ++ e1 ++ [Log INFO "Terminating Airtop session..." []]).
    rewrite <- !app_assoc. reflexivity.
Qed.

(** C7 as stated fails: when the service refuses the session, the
    extraction raises and no termination is requested. *)
Lemma no_termination_without_session :
  fst (fetch_occupancy_from_cloudbeds Sample.json_loads Sample.env_refused
         initial) = inl (ApiError 503 "Service Unavailable") /\
  count is_terminate
    (trace (snd (fetch_occupancy_from_cloudbeds Sample.json_loads
                   Sample.env_refused initial))) = 0.
Proof. split; reflexivity. Qed.

(** C8. Every reading the extraction returns has the four keys, and its
    four values are not all zero. *)
Theorem returned_reading_keeps_invariant json_loads w d :
  fst (fetch_occupancy_from_cloudbeds json_loads w initial) = inr (Some d) ->
  has_all_keys d /\ ~ all_zero d.
Proof.
  intros H. apply fetch_returns_accepted in H.
  destruct H as (n & _ & raw & _ & _ & _ & _ & Hk & Hz).
  split; [exact Hk|]. now apply some_nonzero_not_all_zero.
Qed.

Lemma returned_reading_keeps_invariant_witness :
  has_all_keys Sample.reading /\ ~ all_zero Sample.reading.
Proof.
  apply (@returned_reading_keeps_invariant Sample.json_loads
           (Sample.env "NO_DATA" Sample.reading_text "" (inr tt) 200)
           Sample.reading).
  reflexivity.
Defined.

(** A key that is not in the dictionary is looked up as [None]. *)
Lemma dict_get_absent (d : dict) (k : string) :
  ~ In k (dict_keys d) -> dict_get d k = VNone.
Proof.
  induction d as [|[k' v] d IH]; simpl; [reflexivity|].
  intros H. destruct (String.eqb_spec k' k) as [->|Hne].
  - elim H. now left.
  - apply IH. intros Hin. apply H. now right.
Qed.

(** C9, as the code has it: once the key check has passed and the PATCH
    has been answered, the update raises exactly when the status is from
    400 to 599, which is when [raise_for_status] raises; it then logs the
    error with the body of the response and raises that same error.  For
    any other status it returns normally.  Either way one PATCH has been
    sent. *)
Theorem update_raises_on_error_status w occupancy s resp :
  airtable_key_passes w ->
  requests_patch w airtable_url (airtable_headers (AIRTABLE_API_KEY w))
                 (VDict (airtable_payload occupancy)) = inr resp ->
  ((400 <= status_code resp < 600)%Z ->
   fst (update_airtable w occupancy s)
     = inl (RequestsHTTPError (status_code resp)) /\
   exists evs,
     trace (snd (update_airtable w occupancy s)) =
       evs ++ [ Log ERROR "Error updating Airtable: %s - %s"
                    [ LExn (RequestsHTTPError (status_code resp));
                      LStr (text resp) ] ]) /\
  (~ (400 <= status_code resp < 600)%Z ->
   fst (update_airtable w occupancy s) = inr tt) /\
  count is_patch (trace (snd (update_airtable w occupancy s)))
    = count is_patch (trace s) + 1.
Proof.
  intros Hk Hr. rewrite (update_run _ _ Hk), Hr.
  cbn [fst snd add_events trace patch_outcome].
  unfold update_events. rewrite Hr. unfold raise_for_status.
  split; [|split].
  - intros [H1 H2].
    apply Z.leb_le in H1. apply Z.ltb_lt in H2. rewrite H1, H2.
    cbn [andb]. split; [reflexivity|].
    eexists (trace s ++ [_; _]). rewrite <- !app_assoc. reflexivity.
  - intros H.
    destruct (400 <=? status_code resp)%Z eqn:H1;
      destruct (status_code resp <? 600)%Z eqn:H2; try reflexivity.
    apply Z.leb_le in H1. apply Z.ltb_lt in H2. elim H. now split.
  - rewrite !count_app.
    destruct ((400 <=? status_code resp)%Z && (status_code resp <? 600)%Z);
      reflexivity.
Qed.

Lemma update_raises_on_error_status_witness :
  fst (update_airtable (Sample.env "" "" "" (inr tt) 404) Sample.reading
         initial)
  = inl (RequestsHTTPError 404) /\
  exists evs,
    trace (snd (update_airtable (Sample.env "" "" "" (inr tt) 404)
                  Sample.reading initial)) =
      evs ++ [ Log ERROR "Error updating Airtable: %s - %s"
                   [LExn (RequestsHTTPError 404); LStr "body"] ].
Proof.
  apply (@update_raises_on_error_status
           (Sample.env "" "" "" (inr tt) 404) Sample.reading initial
           {| status_code := 404; text := "body" |}).
  - reflexivity.
  - reflexivity.
  - simpl. lia.
Defined.

(** C9 as stated fails: the status 304 is not a 2xx status, and the
    update returns without raising. *)
Lemma not_modified_status_returns_normally :
  fst (update_airtable (Sample.env "" "" "" (inr tt) 304) Sample.reading
         initial) = inr tt /\
  ((200 <=? 304) && (304 <? 300))%Z = false.
Proof. split; reflexivity. Qed.

(** The lookup of a key gives the value of its first binding. *)
Lemma dict_get_first (before after : dict) (k : string) (v : value) :
  ~ In k (dict_keys before) ->
  dict_get (before ++ (k, v) :: after) k = v.
Proof.
  induction before as [|[k' v'] before IH]; simpl.
  - intros _. now rewrite String.eqb_refl.
  - intros H. destruct (String.eqb_spec k' k) as [->|Hne].
    + elim H. now left.
    + apply IH. intros Hin. apply H. now right.
Qed.

(** The lookup of a key does not see the bindings of other keys. *)
Lemma dict_get_other (before after : dict) (k key : string) (v : value) :
  k <> key ->
  dict_get (before ++ (k, v) :: after) key = dict_get (before ++ after) key.
Proof.
  intros Hne. induction before as [|[k' v'] before IH]; simpl.
  - destruct (String.eqb_spec k key) as [E|_]; [now elim Hne|reflexivity].
  - now rewrite IH.
Qed.

(** C10. For every dictionary, the [fields] object of the request has
    the four field names and nothing else.  Each of its values is
    obtained by looking up the key of the field: the value the key is
    bound to in the dictionary when it is there, and [None] when it is
    absent; a binding of any other key changes nothing of what is sent.
    The update does not raise on account of the keys: when its key check
    passes, it sends one PATCH with that object and its outcome is that of
    the request; when the check fails, it raises the configuration error
    and sends nothing. *)
Theorem update_sends_the_four_fields w occupancy s :
  dict_keys (airtable_fields occupancy) =
    ["Available Units"; "Booked Units"; "Out of Service"; "Blocked Dates"] /\
  map snd (airtable_fields occupancy) =
    map (dict_get occupancy) expected_keys /\
  (forall k, ~ In k (dict_keys occupancy) -> dict_get occupancy k = VNone) /\
  (forall before k v after,
     occupancy = before ++ (k, v) :: after ->
     ~ In k (dict_keys before) ->
     dict_get occupancy k = v) /\
  (forall field key,
     In (field, key)
        [ ("Available Units", "available_units");
          ("Booked Units", "booked_units");
          ("Out of Service", "out_of_service");
          ("Blocked Dates", "blocked_dates") ] ->
     (~ In key (dict_keys occupancy) ->
      In (field, VNone) (airtable_fields occupancy)) /\
     (forall before v after,
        occupancy = before ++ (key, v) :: after ->
        ~ In key (dict_keys before) ->
        In (field, v) (airtable_fields occupancy))) /\
  (forall before k v after,
     occupancy = before ++ (k, v) :: after ->
     ~ In k expected_keys ->
     airtable_fields occupancy = airtable_fields (before ++ after)) /\
  (airtable_key_passes w ->
   fst (update_airtable w occupancy s) =
     patch_outcome
       (requests_patch w airtable_url (airtable_headers (AIRTABLE_API_KEY w))
          (VDict [ ("fields", VDict (airtable_fields occupancy)) ])) /\
   filter is_patch (trace (snd (update_airtable w occupancy s))) =
     filter is_patch (trace s) ++
     [ Patch airtable_url (airtable_headers (AIRTABLE_API_KEY w))
             (VDict [ ("fields", VDict (airtable_fields occupancy)) ]) ]) /\
  (~ airtable_key_passes w ->
   update_airtable w occupancy s =
     (inl (RuntimeError "AIRTABLE_API_KEY is not set"), s)).
Proof.
  split; [reflexivity|]. split; [reflexivity|].
  split; [apply dict_get_absent|].
  split; [intros before k v after -> Hk; now apply dict_get_first|].
  split; [|split; [|split]].
  - intros field key Hin. split.
    + intros Habs. unfold airtable_fields.
      destruct Hin as [E|[E|[E|[E|[]]]]]; inversion E; subst;
        rewrite (dict_get_absent _ _ Habs); simpl; tauto.
    + intros before v after -> Hk. unfold airtable_fields.
      destruct Hin as [E|[E|[E|[E|[]]]]]; inversion E; subst;
        rewrite (dict_get_first _ _ _ _ Hk); simpl; tauto.
  - intros before k v after -> Hk. unfold airtable_fields.
    rewrite !dict_get_other; [reflexivity| | | |];
      intros ->; apply Hk; simpl; tauto.
  - intros Hk. rewrite (update_run _ _ Hk).
    cbn [fst snd add_events trace]. split; [reflexivity|].
    now rewrite filter_app, update_events_patch.
  - apply update_key_fails.
Qed.

Lemma update_sends_the_four_fields_witness :
  fst (update_airtable Cases.scenario_a
         [ ("booked_units", VInt 8); ("note", VStr "late");
           ("available_units", VInt 28); ("blocked_dates", VInt 2) ]
         initial) = inr tt /\
  filter is_patch
    (trace (snd (update_airtable Cases.scenario_a
                   [ ("booked_units", VInt 8); ("note", VStr "late");
                     ("available_units", VInt 28); ("blocked_dates", VInt 2) ]
                   initial))) =
    [ Patch airtable_url (airtable_headers "pat-live")
        (VDict
           [ ("fields",
              VDict
                [ ("Available Units", VInt 28); ("Booked Units", VInt 8);
                  ("Out of Service", VNone); ("Blocked Dates", VInt 2) ]) ]) ].
Proof.
  destruct (@update_sends_the_four_fields Cases.scenario_a
              [ ("booked_units", VInt 8); ("note", VStr "late");
                ("available_units", VInt 28); ("blocked_dates", VInt 2) ]
              initial) as (_ & _ & _ & _ & _ & _ & H & _).
  destruct (H eq_refl) as [R P]. rewrite R, P. split; reflexivity.
Defined.


(** ** Further facts about runs *)

Lemma plain_app (e1 e2 : list event) :
  plain e1 -> plain e2 -> plain (e1 ++ e2).
Proof.
  unfold plain. intros H1 H2. rewrite forallb_app. now rewrite H1, H2.
Qed.

Lemma plain_calm (evs : list event) : plain evs -> calm evs.
Proof.
  unfold plain, calm. induction evs as [|ev evs IH]; simpl; [auto|].
  intros H. apply andb_true_iff in H. destruct H as [H1 H2].
  rewrite (IH H2), andb_true_r.
  unfold plain_event in H1. unfold calm_event.
  destruct (is_error_log ev); [discriminate|exact H1].
Qed.

Lemma plain_count_error (evs : list event) :
  plain evs -> count is_error_log evs = 0.
Proof.
  unfold plain, count. induction evs as [|ev evs IH]; simpl; [auto|].
  intros H. apply andb_true_iff in H. destruct H as [H1 H2].
  unfold plain_event in H1. apply negb_true_iff in H1.
  destruct (is_error_log ev); [discriminate|auto].
Qed.

Lemma for_each_cons X A (x : X) (xs : list X) (body : X -> M (control A))
    (after : M A) (s : state) :
  for_each (x :: xs) body after s =
    match body x s with
    | (inl e, s') => (inl e, s')
    | (inr Continue, s') => for_each xs body after s'
    | (inr (Return a), s') => (inr a, s')
    end.
Proof.
  cbn [for_each]. unfold bind.
  destruct (body x s) as [[e|[|a]] s']; reflexivity.
Qed.

Section Shapes.

Variable json_loads : string -> exn + value.
Variable w : environment.

(** Whatever the answer, an attempt makes one query and writes no ERROR
    line; it waits exactly when it asks for another attempt, which the
    last attempt never does; and it ends the loop with [None] only on the
    last attempt, for the sentinel. *)
Lemma attempt_shape wid n s r s' :
  attempt_body json_loads w wid n s = (r, s') ->
  exists evs,
    s' = add_events s evs /\ plain evs /\
    count is_page_query evs = 1 /\
    count is_sleep evs = match r with inr Continue => 1 | _ => 0 end /\
    (r = inr Continue -> n <> max_attempts) /\
    (r = inr (Return None) ->
     n = max_attempts /\ exists raw, answers w n raw /\ is_sentinel raw).
Proof.
  unfold attempt_body. unfold_monad.
  cbn [pr_error pr_data client session_id trace].
  repeat split_match.
  all: intros H; inversion H; subst; clear H.
  all: eexists; split; [same_state|].
  all: split; [reflexivity|].
  all: split; [reflexivity|].
  all: split; [reflexivity|].
  all: split; try (intros ?; discriminate).
  - intros E. split.
    + now apply Nat.eqb_eq.
    + destruct p as [perr pdata]. simpl in *. subst.
      eexists. split; [eassumption|]. now apply String.eqb_eq.
  - intros _. now apply Nat.eqb_neq.
  - intros _. now apply Nat.eqb_neq.
Qed.

(** The loop from attempt [a] to the last one is decided at some attempt
    [n]: the attempts before it each made a query and waited, attempt [n]
    made a query and did not wait. *)
Lemma loop_shape wid after k :
  forall a s r s',
    a + k = max_attempts ->
    for_each (seq a (S k)) (attempt_body json_loads w wid) after s = (r, s') ->
    exists n evs,
      a <= n <= max_attempts /\
      s' = add_events s evs /\ plain evs /\
      count is_page_query evs = S (n - a) /\
      count is_sleep evs = n - a /\
      (r = inr None ->
       n = max_attempts /\
       exists raw, answers w max_attempts raw /\ is_sentinel raw).
Proof.
  induction k as [|k IH]; intros a s r s' Ha H.
  - cbn [seq for_each] in H. unfold bind at 1 in H.
    destruct (attempt_body json_loads w wid a s) as [c s1] eqn:E.
    apply attempt_shape in E.
    destruct E as (evs & -> & P & Q & S & C & N).
    rewrite Nat.add_0_r in Ha. subst a.
    destruct c as [e|[|v]]; [| now elim (C eq_refl) |];
      cbv [ret] in H; inversion H; subst; exists max_attempts, evs;
      rewrite Nat.sub_diag;
      (split; [lia|]); (split; [reflexivity|]); (split; [assumption|]);
      (split; [assumption|]); (split; [assumption|]).
    + discriminate.
    + intros E. inversion E. subst v. split; [reflexivity|now apply N].
  - cbn [seq for_each] in H. unfold bind at 1 in H.
    destruct (attempt_body json_loads w wid a s) as [c s1] eqn:E.
    apply attempt_shape in E.
    destruct E as (evs & -> & P & Q & S & C & N).
    destruct c as [e|[|v]].
    + inversion H. subst. exists a, evs. rewrite Nat.sub_diag.
      (split; [lia|]); (split; [reflexivity|]); (split; [assumption|]);
      (split; [assumption|]); (split; [assumption|]). discriminate.
    + apply IH in H; [|lia].
      destruct H as (n & e2 & Hn & -> & P2 & Q2 & S2 & N2).
      exists n, (evs ++ e2). rewrite add_events_app.
      split; [lia|]. split; [reflexivity|].
      split; [now apply plain_app|].
      split; [rewrite count_app; lia|].
      split; [rewrite count_app; lia|]. exact N2.
    + cbv [ret] in H. inversion H. subst. exists a, evs.
      rewrite Nat.sub_diag.
      (split; [lia|]); (split; [reflexivity|]); (split; [assumption|]);
      (split; [assumption|]); (split; [assumption|]).
      intros E. inversion E. subst v. destruct (N eq_refl) as [-> ?].
      now split.
Qed.


(** The loop from attempt [a] to the last one never runs what follows
    it. *)
Lemma loop_ignores_after wid after after' k :
  forall a s,
    a + k = max_attempts ->
    for_each (seq a (S k)) (attempt_body json_loads w wid) after s =
    for_each (seq a (S k)) (attempt_body json_loads w wid) after' s.
Proof.
  induction k as [|k IH]; intros a s Ha;
    rewrite <- (cons_seq _ a), !for_each_cons;
    destruct (attempt_body json_loads w wid a s) as [c s1] eqn:E;
    destruct c as [e|[|v]]; try reflexivity.
  - apply attempt_shape in E.
    destruct E as (evs & _ & _ & _ & _ & C & _).
    elim (C eq_refl). lia.
  - apply IH. lia.
Qed.

(** The body of the [try], whatever the environment: no ERROR line, at
    most three queries and three waits; and [None] comes out only after
    three queries and three waits, for the sentinel on the last attempt. *)
Lemma try_body_shape s r s' :
  fetch_try_body json_loads w s = (r, s') ->
  exists evs,
    trace s' = trace s ++ evs /\ plain evs /\
    count is_page_query evs <= max_attempts /\
    count is_sleep evs <= max_attempts /\
    (r = inr None ->
     count is_page_query evs = max_attempts /\
     count is_sleep evs = max_attempts /\
     exists raw, answers w max_attempts raw /\ is_sentinel raw).
Proof.
  unfold fetch_try_body. unfold_monad.
  cbn [client session_id trace].
  repeat split_match.
  all: try (intros H; inversion H; subst; clear H;
            cbn [client session_id trace]; rewrite <- ?app_assoc;
            cbn [app]; eexists; split; [reflexivity|];
            split; [reflexivity|];
            split; [unfold count, max_attempts; simpl; lia|];
            split; [unfold count, max_attempts; simpl; lia|];
            discriminate).
  intros H. apply (@loop_shape _ _ 2 1) in H; [|reflexivity].
  destruct H as (n & evs & Hn & -> & P & Q & S & N).
  cbn [add_events client session_id trace]. rewrite <- !app_assoc.
  cbn [app]. eexists. split; [reflexivity|].
  split; [|split; [|split]].
  - unfold plain in *. simpl. exact P.
  - unfold count in *. simpl. lia.
  - unfold count in *. simpl. lia.
  - intros E. destruct (N E) as (-> & raw & Ha & Hs).
    unfold count in *. simpl. repeat split; try lia. now exists raw.
Qed.

(** Once the key check has passed, the extraction adds to the trace of
    the body of its [try] the line of the [except] clause that caught the
    error, if any, and the events of the [finally] clause. *)
Lemma fetch_run_exact r s1 :
  airtop_key_passes w ->
  fetch_try_body json_loads w initial = (r, s1) ->
  fetch_occupancy_from_cloudbeds json_loads w initial =
    (r, add_events s1
          (outcome_events r ++
           cleanup_events w (client s1) (session_id s1))).
Proof.
  unfold airtop_key_passes. intros Hk Hb.
  unfold fetch_occupancy_from_cloudbeds. rewrite Hk.
  unfold try_finally, try_except, bind at 1 2, set_client, set_session_id.
  cbn [client session_id trace].
  change {| client := false; session_id := None; trace := trace initial |}
    with initial.
  rewrite Hb. destruct r as [e|a].
  - assert (fetch_handlers e s1 = (inl e, add_events s1 (handler_events e)))
      as ->.
    { destruct e; unfold fetch_handlers, handler_events; unfold_monad;
        rewrite ?add_events_nil; reflexivity. }
    rewrite finally_run. cbn [add_events client session_id outcome_events].
    now rewrite <- add_events_app.
  - rewrite finally_run. reflexivity.
Qed.

Lemma handler_events_counts e :
  count is_page_query (handler_events e) = 0 /\
  count is_sleep (handler_events e) = 0 /\
  count is_patch (handler_events e) = 0 /\
  count is_terminate (handler_events e) = 0 /\
  count is_error_log (handler_events e) =
    if airtop_transport e then 1 else 0.
Proof. destruct e; now repeat split. Qed.

Lemma cleanup_no_error c sid :
  count is_error_log (cleanup_events w c sid) = 0.
Proof.
  unfold cleanup_events. destruct c, sid; try reflexivity.
  destruct (sessions_terminate w); reflexivity.
Qed.

Lemma update_events_counts occupancy :
  count is_page_query (update_events w occupancy) = 0 /\
  count is_sleep (update_events w occupancy) = 0 /\
  count is_terminate (update_events w occupancy) = 0 /\
  count is_patch (update_events w occupancy) = 1.
Proof.
  unfold update_events.
  destruct (requests_patch w _ _ _) as [e|resp]; [now repeat split|].
  destruct (raise_for_status resp); now repeat split.
Qed.

End Shapes.

Lemma count_zero_not_In (p : event -> bool) (t : list event) (ev : event) :
  count p t = 0 -> In ev t -> p ev = false.
Proof.
  unfold count. intros H Hin.
  destruct (p ev) eqn:E; [|reflexivity].
  assert (In ev (filter p t)) as Hf by (apply filter_In; now split).
  apply length_zero_iff_nil in H. rewrite H in Hf. contradiction.
Qed.

(** Every extraction, whatever the environment: at most three queries and
    three waits, no PATCH, at most one termination request, one ERROR line
    exactly when it raises an error of the Airtop client, and [None] only
    after three queries and three waits, for the sentinel on the last
    attempt. *)
Lemma fetch_shape json_loads w :
  count is_page_query
    (trace (snd (fetch_occupancy_from_cloudbeds json_loads w initial)))
    <= max_attempts /\
  count is_sleep
    (trace (snd (fetch_occupancy_from_cloudbeds json_loads w initial)))
    <= max_attempts /\
  count is_patch
    (trace (snd (fetch_occupancy_from_cloudbeds json_loads w initial))) = 0 /\
  count is_terminate
    (trace (snd (fetch_occupancy_from_cloudbeds json_loads w initial))) <= 1 /\
  count is_error_log
    (trace (snd (fetch_occupancy_from_cloudbeds json_loads w initial))) =
    match fst (fetch_occupancy_from_cloudbeds json_loads w initial) with
    | inl e => if airtop_transport e then 1 else 0
    | inr _ => 0
    end /\
  (fst (fetch_occupancy_from_cloudbeds json_loads w initial) = inr None ->
   count is_page_query
     (trace (snd (fetch_occupancy_from_cloudbeds json_loads w initial)))
     = max_attempts /\
   count is_sleep
     (trace (snd (fetch_occupancy_from_cloudbeds json_loads w initial)))
     = max_attempts /\
   exists raw, answers w max_attempts raw /\ is_sentinel raw).
Proof.
  destruct (PyStr.is_empty (AIRTOP_API_KEY w)
            || (AIRTOP_API_KEY w =? "AIRTOP_API_KEY")%string) eqn:Hk.
  - unfold fetch_occupancy_from_cloudbeds. rewrite Hk.
    cbn [raise fst snd initial trace]. unfold count, max_attempts. simpl.
    split; [lia|]. split; [lia|]. split; [lia|]. split; [lia|].
    split; [lia|]. discriminate.
  - destruct (fetch_try_body json_loads w initial) as [r s1] eqn:Hb.
    rewrite (@fetch_run_exact json_loads w r s1 Hk Hb).
    cbn [fst snd add_events trace].
    apply try_body_shape in Hb.
    destruct Hb as (evs & -> & P & Q & S & N).
    cbn [initial trace app].
    destruct (cleanup_counts w (client s1) (session_id s1))
      as (P4 & Q4 & S4 & T4).
    assert (count is_terminate
              (cleanup_events w (client s1) (session_id s1)) <= 1) as T5.
    { unfold count. rewrite T4.
      destruct (client s1), (session_id s1); simpl; lia. }
    assert (count is_page_query (outcome_events r) = 0 /\
            count is_sleep (outcome_events r) = 0 /\
            count is_patch (outcome_events r) = 0 /\
            count is_terminate (outcome_events r) = 0 /\
            count is_error_log (outcome_events r) =
              match r with
              | inl e => if airtop_transport e then 1 else 0
              | inr _ => 0
              end) as (Q3 & S3 & P3 & T3 & E3).
    { destruct r as [e|a]; [apply handler_events_counts|now repeat split]. }
    rewrite !count_app, Q3, S3, P3, T3, E3, P4, Q4, S4.
    rewrite (calm_count_patch (plain_calm P)), (plain_count_error P).
    rewrite (cleanup_no_error w).
    assert (count is_terminate evs = 0) as T1.
    { unfold count. now rewrite (proj1 (calm_filter (plain_calm P))). }
    rewrite T1.
    split; [lia|]. split; [lia|]. split; [lia|]. split; [lia|].
    split; [lia|].
    intros E. destruct (N E) as (Q' & S' & raw & Ha & Hs).
    split; [lia|]. split; [lia|]. now exists raw.
Qed.

(** X1. The statement after the retry loop (line 269) is never reached:
    the last attempt never asks for another one, so the loop gives the
    same outcome and the same trace whatever stands after it. *)
Theorem loop_never_falls_through json_loads w wid after after' s :
  for_each (seq 1 max_attempts) (attempt_body json_loads w wid) after s =
  for_each (seq 1 max_attempts) (attempt_body json_loads w wid) after' s.
Proof.
  apply (@loop_ignores_after json_loads w wid after after' 2 1 s).
  reflexivity.
Qed.

(** X2. Every run is bounded, whatever the services answer: at most three
    page queries, at most three waits (the settle delay and two backoffs),
    at most one termination request and at most one PATCH. *)
Theorem every_run_is_bounded json_loads w :
  count is_page_query (trace (snd (main json_loads w initial))) <= 3 /\
  count is_sleep (trace (snd (main json_loads w initial))) <= 3 /\
  count is_terminate (trace (snd (main json_loads w initial))) <= 1 /\
  count is_patch (trace (snd (main json_loads w initial))) <= 1.
Proof.
  destruct (fetch_shape json_loads w) as (Q & S & P & T & _).
  unfold max_attempts in Q, S.
  rewrite main_run.
  destruct (fetch_occupancy_from_cloudbeds json_loads w initial)
    as [[e|[d|]] s1]; cbn [fst snd] in *.
  - repeat split; lia.
  - destruct (PyStr.is_empty (AIRTABLE_API_KEY w)
              || (AIRTABLE_API_KEY w =? "YOUR_AIRTABLE_API_KEY")%string)
      eqn:Hk.
    + rewrite update_key_fails by (unfold airtable_key_passes; congruence).
      cbn [snd add_events trace]. rewrite !count_app.
      unfold count at 2 4 6 8. simpl. repeat split; lia.
    + rewrite (update_run _ _ Hk). cbn [snd add_events trace].
      destruct (update_events_counts w d) as (Q2 & S2 & T2 & P2).
      rewrite !count_app, Q2, S2, T2, P2.
      unfold count at 2 4 6 8. simpl. repeat split; lia.
  - cbn [snd add_events trace]. rewrite !count_app.
    unfold count at 2 4 6 8. simpl. repeat split; lia.
Qed.

(** X3. The record is written only when the scrape is over: the trace of
    a run is the trace of the extraction followed by events among which
    there is no page query, no wait and no termination request, and the
    extraction itself sends no PATCH. *)
Theorem update_comes_after_extraction json_loads w :
  exists rest,
    trace (snd (main json_loads w initial)) =
      trace (snd (fetch_occupancy_from_cloudbeds json_loads w initial))
      ++ rest /\
    count is_patch
      (trace (snd (fetch_occupancy_from_cloudbeds json_loads w initial)))
      = 0 /\
    count is_page_query rest = 0 /\
    count is_sleep rest = 0 /\
    count is_terminate rest = 0.
Proof.
  destruct (fetch_shape json_loads w) as (_ & _ & P & _).
  rewrite main_run.
  destruct (fetch_occupancy_from_cloudbeds json_loads w initial)
    as [[e|[d|]] s1]; cbn [fst snd] in *.
  - exists []. rewrite app_nil_r. now repeat split.
  - destruct (PyStr.is_empty (AIRTABLE_API_KEY w)
              || (AIRTABLE_API_KEY w =? "YOUR_AIRTABLE_API_KEY")%string)
      eqn:Hk.
    + rewrite update_key_fails by (unfold airtable_key_passes; congruence).
      cbn [snd add_events trace]. eexists. split; [reflexivity|].
      now repeat split.
    + rewrite (update_run _ _ Hk). cbn [snd add_events trace].
      rewrite <- app_assoc. eexists. split; [reflexivity|].
      destruct (update_events_counts w d) as (Q2 & S2 & T2 & P2).
      rewrite !count_app, Q2, S2, T2. now repeat split.
  - cbn [snd add_events trace]. eexists. split; [reflexivity|].
    now repeat split.
Qed.

(** X4. A PATCH appears in a run only when the extraction returned a
    reading and the Airtable key check passed; it is then addressed to the
    record's URL and carries the fields of that reading. *)
Theorem patch_only_for_a_reading json_loads w url headers body :
  In (Patch url headers body) (trace (snd (main json_loads w initial))) ->
  exists d,
    fst (fetch_occupancy_from_cloudbeds json_loads w initial) = inr (Some d) /\
    airtable_key_passes w /\
    url = airtable_url /\
    body = VDict (airtable_payload d).
Proof.
  destruct (fetch_shape json_loads w) as (_ & _ & P & _).
  rewrite main_run.
  destruct (fetch_occupancy_from_cloudbeds json_loads w initial)
    as [[e|[d|]] s1]; cbn [fst snd] in *; intros Hin.
  - apply (@count_zero_not_In _ _ _ P) in Hin. discriminate.
  - destruct (PyStr.is_empty (AIRTABLE_API_KEY w)
              || (AIRTABLE_API_KEY w =? "YOUR_AIRTABLE_API_KEY")%string)
      eqn:Hk.
    + rewrite update_key_fails in Hin
        by (unfold airtable_key_passes; congruence).
      cbn [snd add_events trace] in Hin. apply in_app_or in Hin.
      destruct Hin as [Hin|[Hin|[]]]; [|discriminate].
      apply (@count_zero_not_In _ _ _ P) in Hin. discriminate.
    + rewrite (update_run _ _ Hk) in Hin. cbn [snd add_events trace] in Hin.
      exists d. split; [reflexivity|]. split; [exact Hk|].
      apply in_app_or in Hin. destruct Hin as [Hin|Hin].
      * apply in_app_or in Hin. destruct Hin as [Hin|[Hin|[]]];
          [|discriminate].
        apply (@count_zero_not_In _ _ _ P) in Hin. discriminate.
      * assert (In (Patch url headers body)
                  (filter is_patch (update_events w d))) as Hf
          by (apply filter_In; now split).
        rewrite update_events_patch in Hf. destruct Hf as [Hf|[]].
        inversion Hf. now split.
  - cbn [snd add_events trace] in Hin. apply in_app_or in Hin.
    destruct Hin as [Hin|[Hin|[]]]; [|discriminate].
    apply (@count_zero_not_In _ _ _ P) in Hin. discriminate.
Qed.

Lemma patch_only_for_a_reading_witness :
  exists d,
    fst (fetch_occupancy_from_cloudbeds Sample.json_loads Cases.scenario_a
           initial) = inr (Some d) /\
    airtable_key_passes Cases.scenario_a /\
    airtable_url = airtable_url /\
    VDict (airtable_payload Sample.reading) = VDict (airtable_payload d).
Proof.
  apply (@patch_only_for_a_reading Sample.json_loads Cases.scenario_a
           airtable_url (airtable_headers "pat-live")
           (VDict (airtable_payload Sample.reading))).
  vm_compute. tauto.
Defined.

Lemma attempt_query_raises json_loads w wid n e s :
  page_query w n = inl e ->
  attempt_body json_loads w wid n s =
    (inl e,
     add_events s
       [ Log INFO "Running page_query attempt %d/%d..."
             [LInt (Z.of_nat n); LInt (Z.of_nat max_attempts)];
         PageQuery (session_id s) wid ]).
Proof.
  intros H. unfold attempt_body. unfold_monad. rewrite H. same_state.
Qed.

Lemma attempt_query_error json_loads w wid n resp err s :
  page_query w n = inr resp ->
  pr_error resp = Some err ->
  attempt_body json_loads w wid n s =
    (inl (RuntimeError ("Failed to prompt content: " ++ err)%string),
     add_events s
       [ Log INFO "Running page_query attempt %d/%d..."
             [LInt (Z.of_nat n); LInt (Z.of_nat max_attempts)];
         PageQuery (session_id s) wid ]).
Proof.
  intros H He. unfold attempt_body. unfold_monad. rewrite H.
  cbn [client session_id trace]. rewrite He. same_state.
Qed.

Lemma attempt_decode_error json_loads w wid n raw e s :
  answers w n raw ->
  PyStr.startswith (PyStr.strip raw) "{" = true ->
  json_loads (PyStr.strip raw) = inl e ->
  attempt_body json_loads w wid n s =
    (inl e, add_events s (attempt_events (session_id s) wid n raw)).
Proof.
  unfold answers. intros Ha Hb He.
  pose proof (PyStrFacts.brace_not_sentinel raw Hb) as Hs.
  unfold PyStr.normalized in Hs.
  unfold attempt_body. unfold_monad. rewrite Ha.
  cbn [pr_error pr_data client session_id trace].
  rewrite Hs, Hb. cbn [negb]. rewrite He. same_state.
Qed.

(** X5. A query that fails is not retried.  When the call of attempt [n]
    throws, the extraction raises that same exception; when its response
    reports an error, the extraction raises the error that quotes it.
    Either way attempt [n] is the last query and no wait follows it. *)
Theorem failed_query_is_not_retried json_loads w n :
  loads_object_brace json_loads ->
  attempt_made json_loads w n ->
  (forall e,
     page_query w n = inl e ->
     fst (fetch_occupancy_from_cloudbeds json_loads w initial) = inl e /\
     count is_page_query
       (trace (snd (fetch_occupancy_from_cloudbeds json_loads w initial)))
       = n /\
     count is_sleep
       (trace (snd (fetch_occupancy_from_cloudbeds json_loads w initial)))
       = n) /\
  (forall resp err,
     page_query w n = inr resp ->
     pr_error resp = Some err ->
     fst (fetch_occupancy_from_cloudbeds json_loads w initial) =
       inl (RuntimeError ("Failed to prompt content: " ++ err)%string) /\
     count is_page_query
       (trace (snd (fetch_occupancy_from_cloudbeds json_loads w initial)))
       = n /\
     count is_sleep
       (trace (snd (fetch_occupancy_from_cloudbeds json_loads w initial)))
       = n).
Proof.
  intros Hj ((sid & wid & Hsetup) & Hn & Hbefore).
  pose proof (@retried_before json_loads w n wid Hj (proj2 Hn) Hbefore)
    as Hpass.
  split.
  - intros e He.
    destruct (@fetch_decided json_loads w n sid wid (inl e)
                Hsetup Hn Hpass) as (s' & E & Q & S & _).
    + intros s. eexists.
      split; [apply (@attempt_query_raises json_loads w wid n e s He)|].
      now repeat split.
    + rewrite E. now repeat split.
  - intros resp err Hr He.
    destruct (@fetch_decided json_loads w n sid wid
                (inl (RuntimeError
                        ("Failed to prompt content: " ++ err)%string))
                Hsetup Hn Hpass) as (s' & E & Q & S & _).
    + intros s. eexists.
      split; [apply (@attempt_query_error json_loads w wid n resp err s Hr He)|].
      now repeat split.
    + rewrite E. now repeat split.
Qed.

Lemma failed_query_is_not_retried_witness :
  fst (fetch_occupancy_from_cloudbeds Sample.json_loads
         (Cases.with_query Cases.scenario_a 2 (inl (ReadTimeout "read")))
         initial) = inl (ReadTimeout "read") /\
  count is_page_query
    (trace (snd (fetch_occupancy_from_cloudbeds Sample.json_loads
                   (Cases.with_query Cases.scenario_a 2
                      (inl (ReadTimeout "read")))
                   initial))) = 2 /\
  count is_sleep
    (trace (snd (fetch_occupancy_from_cloudbeds Sample.json_loads
                   (Cases.with_query Cases.scenario_a 2
                      (inl (ReadTimeout "read")))
                   initial))) = 2.
Proof.
  destruct (@failed_query_is_not_retried Sample.json_loads
              (Cases.with_query Cases.scenario_a 2 (inl (ReadTimeout "read")))
              2) as (H & _).
  - apply loads_from_brace. reflexivity.
  - split; [|split].
    + exists (Some "sess-1"), "win-1". repeat split.
    + unfold max_attempts. lia.
    + intros j Hj. assert (j = 1) by lia. subst j.
      exists "NO_DATA". split; [reflexivity|]. left. reflexivity.
  - apply H. reflexivity.
Defined.

(** X6. What the extraction writes at level ERROR: exactly one line when
    it raises an [ApiError], an [httpx.ReadTimeout] or another
    [httpx.HTTPError], and none when it raises anything else (a validation
    failure, a configuration error, a JSON decoding error) or returns. *)
Theorem error_line_only_for_client_errors json_loads w :
  count is_error_log
    (trace (snd (fetch_occupancy_from_cloudbeds json_loads w initial))) =
    match fst (fetch_occupancy_from_cloudbeds json_loads w initial) with
    | inl e => if airtop_transport e then 1 else 0
    | inr _ => 0
    end.
Proof.
  apply fetch_shape.
Qed.

(** X7. An answer that starts with an opening brace and that [json.loads]
    rejects is fatal at once: the extraction raises the decoding error of
    attempt [n], and attempt [n] is the last query, with no wait after
    it. *)
Theorem undecodable_answer_is_fatal json_loads w n raw e :
  loads_object_brace json_loads ->
  attempt_made json_loads w n ->
  answers w n raw ->
  PyStr.startswith (PyStr.strip raw) "{" = true ->
  json_loads (PyStr.strip raw) = inl e ->
  fst (fetch_occupancy_from_cloudbeds json_loads w initial) = inl e /\
  count is_page_query
    (trace (snd (fetch_occupancy_from_cloudbeds json_loads w initial))) = n /\
  count is_sleep
    (trace (snd (fetch_occupancy_from_cloudbeds json_loads w initial))) = n.
Proof.
  intros Hj ((sid & wid & Hsetup) & Hn & Hbefore) Ha Hb He.
  pose proof (@retried_before json_loads w n wid Hj (proj2 Hn) Hbefore)
    as Hpass.
  destruct (@fetch_decided json_loads w n sid wid (inl e)
              Hsetup Hn Hpass) as (s' & E & Q & S & _).
  - intros s. eexists.
    split; [apply (@attempt_decode_error json_loads w wid n raw e s Ha Hb He)|].
    now repeat split.
  - rewrite E. now repeat split.
Qed.

Lemma undecodable_answer_is_fatal_witness :
  fst (fetch_occupancy_from_cloudbeds Sample.json_loads
         (Sample.env Cases.broken_text "" "" (inr tt) 200) initial)
  = inl (JSONDecodeError "Expecting value") /\
  count is_page_query
    (trace (snd (fetch_occupancy_from_cloudbeds Sample.json_loads
                   (Sample.env Cases.broken_text "" "" (inr tt) 200)
                   initial))) = 1 /\
  count is_sleep
    (trace (snd (fetch_occupancy_from_cloudbeds Sample.json_loads
                   (Sample.env Cases.broken_text "" "" (inr tt) 200)
                   initial))) = 1.
Proof.
  apply (@undecodable_answer_is_fatal Sample.json_loads
           (Sample.env Cases.broken_text "" "" (inr tt) 200)
           1 Cases.broken_text (JSONDecodeError "Expecting value")).
  - apply loads_from_brace. reflexivity.
  - split; [|split].
    + exists (Some "sess-1"), "win-1". repeat split.
    + unfold max_attempts. lia.
    + intros j Hj. lia.
  - reflexivity.
  - reflexivity.
  - reflexivity.
Defined.

(** X8. A session that cannot be used stops the run before anything else
    happens.  When [sessions.create] answers with no session, or with a
    session that reports errors, the extraction raises the error that
    says so, and all it has done is make the client and ask for the
    session: no profile request, no window, no query, and no termination
    request either. *)
Theorem unusable_session_stops_the_run json_loads w :
  airtop_key_passes w ->
  (sessions_create w = inr None ->
   fetch_occupancy_from_cloudbeds json_loads w initial =
     (inl (RuntimeError "Failed to create session: None"),
      {| client := true; session_id := None;
         trace := [ ClientNew (AIRTOP_API_KEY w);
                    SessionsCreate CLOUDBEDS_PROFILE_NAME 10 ] |})) /\
  (forall session errors,
     sessions_create w = inr (Some session) ->
     session_errors session = Some errors ->
     fetch_occupancy_from_cloudbeds json_loads w initial =
       (inl (RuntimeError ("Failed to create session: " ++ errors)%string),
        {| client := true; session_id := None;
           trace := [ ClientNew (AIRTOP_API_KEY w);
                      SessionsCreate CLOUDBEDS_PROFILE_NAME 10 ] |})).
Proof.
  intros Hk. split.
  - intros Hs.
    rewrite (@fetch_run_exact json_loads w
               (inl (RuntimeError "Failed to create session: None"))
               {| client := true; session_id := None;
                  trace := [ ClientNew (AIRTOP_API_KEY w);
                             SessionsCreate CLOUDBEDS_PROFILE_NAME 10 ] |}
               Hk).
    + reflexivity.
    + unfold fetch_try_body. unfold_monad. rewrite Hs. reflexivity.
  - intros session errors Hs He.
    rewrite (@fetch_run_exact json_loads w
               (inl (RuntimeError
                       ("Failed to create session: " ++ errors)%string))
               {| client := true; session_id := None;
                  trace := [ ClientNew (AIRTOP_API_KEY w);
                             SessionsCreate CLOUDBEDS_PROFILE_NAME 10 ] |}
               Hk).
    + reflexivity.
    + unfold fetch_try_body. unfold_monad. rewrite Hs.
      cbn [client session_id trace]. rewrite He. reflexivity.
Qed.

Lemma unusable_session_stops_the_run_witness :
  fetch_occupancy_from_cloudbeds Sample.json_loads
    (Cases.with_session Cases.scenario_a
       (inr (Some {| session_errors := Some "quota";
                     session_data := Some "sess-9" |})))
    initial =
    (inl (RuntimeError "Failed to create session: quota"),
     {| client := true; session_id := None;
        trace := [ ClientNew "sk-live"; SessionsCreate "Cloudbeds" 10 ] |}).
Proof.
  destruct (@unusable_session_stops_the_run Sample.json_loads
              (Cases.with_session Cases.scenario_a
                 (inr (Some {| session_errors := Some "quota";
                               session_data := Some "sess-9" |}))))
    as (_ & H).
  - reflexivity.
  - apply (H {| session_errors := Some "quota";
                session_data := Some "sess-9" |} "quota");
      reflexivity.
Defined.

(** X9. A window that cannot be opened is fatal, and the session is
    released all the same.  When the session and the profile request went
    through and [windows.create] answers without data, the extraction
    raises, having made no query and no wait, and having requested the
    termination of the session it holds. *)
Theorem missing_window_releases_the_session json_loads w sid :
  airtop_key_passes w ->
  sessions_create w =
    inr (Some {| session_errors := None; session_data := sid |}) ->
  save_profile_on_termination w = inr tt ->
  windows_create w = inr None ->
  fst (fetch_occupancy_from_cloudbeds json_loads w initial) =
    inl (RuntimeError "Failed to create window") /\
  count is_page_query
    (trace (snd (fetch_occupancy_from_cloudbeds json_loads w initial))) = 0 /\
  count is_sleep
    (trace (snd (fetch_occupancy_from_cloudbeds json_loads w initial))) = 0 /\
  filter is_terminate
    (trace (snd (fetch_occupancy_from_cloudbeds json_loads w initial))) =
    match sid with
    | Some i => [SessionsTerminate i]
    | None => []
    end.
Proof.
  intros Hk Hs Hp Hw.
  rewrite (@fetch_run_exact json_loads w
             (inl (RuntimeError "Failed to create window"))
             {| client := true; session_id := sid;
                trace := [ ClientNew (AIRTOP_API_KEY w);
                           SessionsCreate CLOUDBEDS_PROFILE_NAME 10;
                           Log INFO "Created Airtop session: %s" [LOpt sid];
                           SaveProfile sid CLOUDBEDS_PROFILE_NAME;
                           WindowsCreate sid CLOUDBEDS_DASHBOARD_URL ] |}
             Hk).
  - cbn [fst snd add_events trace client session_id outcome_events
         handler_events].
    destruct (cleanup_counts w true sid) as (_ & Q & S & T).
    rewrite !count_app, !filter_app, Q, S, T. now repeat split.
  - unfold fetch_try_body. unfold_monad. rewrite Hs.
    cbn [session_errors session_data client session_id trace].
    rewrite Hp, Hw. reflexivity.
Qed.

Lemma missing_window_releases_the_session_witness :
  fst (fetch_occupancy_from_cloudbeds Sample.json_loads
         (Cases.with_window Cases.scenario_a (inr None)) initial) =
    inl (RuntimeError "Failed to create window") /\
  filter is_terminate
    (trace (snd (fetch_occupancy_from_cloudbeds Sample.json_loads
                   (Cases.with_window Cases.scenario_a (inr None))
                   initial))) = [SessionsTerminate "sess-1"].
Proof.
  destruct (@missing_window_releases_the_session Sample.json_loads
              (Cases.with_window Cases.scenario_a (inr None))
              (Some "sess-1")) as (R & _ & _ & T); try reflexivity.
  split; [exact R|exact T].
Defined.

(** X10. When the attempts run out, the last answer alone decides between
    the two ends.  With the first two attempts retried, for the sentinel
    or for an all-zero object in any mix, the extraction returns [None]
    when the third answer is the sentinel and raises when the third answer
    is an all-zero object. *)
Theorem last_answer_decides_exhaustion json_loads w raw :
  loads_object_brace json_loads ->
  attempt_made json_loads w max_attempts ->
  answers w max_attempts raw ->
  (is_sentinel raw ->
   fst (fetch_occupancy_from_cloudbeds json_loads w initial) = inr None) /\
  (forall d,
     parses_as json_loads raw d -> has_all_keys d -> all_zero d ->
     fst (fetch_occupancy_from_cloudbeds json_loads w initial) =
       inl (RuntimeError
              "Model returned 0 for all occupancy fields after multiple attempts.")).
Proof.
  intros Hj ((sid & wid & Hsetup) & Hn & Hbefore) Ha.
  pose proof (@retried_before json_loads w max_attempts wid Hj
                (proj2 Hn) Hbefore) as Hpass.
  split.
  - intros Hs.
    destruct (@fetch_decided json_loads w max_attempts sid wid (inr None)
                Hsetup Hn Hpass) as (s' & E & _).
    + intros s. eexists.
      split; [apply (@attempt_sentinel_last json_loads w wid raw s Ha Hs)|].
      now repeat split.
    + now rewrite E.
  - intros d Hp Hk Hz.
    destruct (@fetch_decided json_loads w max_attempts sid wid
                (inl (RuntimeError
                   "Model returned 0 for all occupancy fields after multiple attempts."))
                Hsetup Hn Hpass) as (s' & E & _).
    + intros s. eexists.
      split; [apply (@attempt_all_zero_last json_loads w wid raw d s
                       Hj Ha Hp Hk Hz)|].
      now repeat split.
    + now rewrite E.
Qed.

Lemma last_answer_decides_exhaustion_witness :
  fst (fetch_occupancy_from_cloudbeds Sample.json_loads
         (Sample.env Sample.zeros_text "NO_DATA" "'NO_DATA'" (inr tt) 200)
         initial) = inr None.
Proof.
  destruct (@last_answer_decides_exhaustion Sample.json_loads
              (Sample.env Sample.zeros_text "NO_DATA" "'NO_DATA'"
                 (inr tt) 200)
              "'NO_DATA'") as (H & _).
  - apply loads_from_brace. reflexivity.
  - split; [|split].
    + exists (Some "sess-1"), "win-1". repeat split.
    + unfold max_attempts. lia.
    + intros j Hj. unfold max_attempts in Hj.
      assert (j = 1 \/ j = 2) as [-> | ->] by lia.
      * exists Sample.zeros_text. split; [reflexivity|]. right.
        exists Sample.zeros. repeat split.
        -- apply length_missing_keys. reflexivity.
        -- apply forallb_all_zero. reflexivity.
      * exists "NO_DATA". split; [reflexivity|]. left. reflexivity.
  - reflexivity.
  - apply H. reflexivity.
Defined.





(** X14. The no-data outcome has one origin.  When the extraction returns
    [None], the third attempt was answered by the sentinel, and the run
    made all three queries and all three waits before giving up. *)
Theorem no_data_only_from_last_sentinel json_loads w :
  fst (fetch_occupancy_from_cloudbeds json_loads w initial) = inr None ->
  count is_page_query
    (trace (snd (fetch_occupancy_from_cloudbeds json_loads w initial)))
    = max_attempts /\
  count is_sleep
    (trace (snd (fetch_occupancy_from_cloudbeds json_loads w initial)))
    = max_attempts /\
  exists raw, answers w max_attempts raw /\ is_sentinel raw.
Proof.
  apply fetch_shape.
Qed.

Lemma no_data_only_from_last_sentinel_witness :
  count is_page_query
    (trace (snd (fetch_occupancy_from_cloudbeds Sample.json_loads
                   (Sample.env Sample.zeros_text "NO_DATA" "'NO_DATA'"
                      (inr tt) 200)
                   initial))) = max_attempts /\
  count is_sleep
    (trace (snd (fetch_occupancy_from_cloudbeds Sample.json_loads
                   (Sample.env Sample.zeros_text "NO_DATA" "'NO_DATA'"
                      (inr tt) 200)
                   initial))) = max_attempts /\
  exists raw,
    answers (Sample.env Sample.zeros_text "NO_DATA" "'NO_DATA'" (inr tt) 200)
      max_attempts raw /\
    is_sentinel raw.
Proof.
  apply (@no_data_only_from_last_sentinel Sample.json_loads
           (Sample.env Sample.zeros_text "NO_DATA" "'NO_DATA'" (inr tt) 200)).
  reflexivity.
Defined.

(** X15. An exception thrown by [requests.patch] itself passes through
    [update_airtable] untouched and unlogged: the [except] clause of line
    124 guards [raise_for_status] only.  The update raises that exception
    and its last event is the request. *)
Theorem patch_exception_is_not_logged w occupancy s e :
  airtable_key_passes w ->
  requests_patch w airtable_url (airtable_headers (AIRTABLE_API_KEY w))
                 (VDict (airtable_payload occupancy)) = inl e ->
  update_airtable w occupancy s =
    (inl e,
     add_events s
       [ Log INFO "Updating Airtable: %s"
             [LValue (VDict (airtable_fields occupancy))];
         Patch airtable_url (airtable_headers (AIRTABLE_API_KEY w))
               (VDict (airtable_payload occupancy)) ]).
Proof.
  intros Hk He. rewrite (update_run _ _ Hk).
  unfold update_events. rewrite He. reflexivity.
Qed.

Lemma patch_exception_is_not_logged_witness :
  update_airtable
    (Cases.with_patch Cases.scenario_a (inl (OtherException "ConnectionError")))
    Sample.reading initial =
    (inl (OtherException "ConnectionError"),
     add_events initial
       [ Log INFO "Updating Airtable: %s"
             [LValue (VDict (airtable_fields Sample.reading))];
         Patch airtable_url (airtable_headers "pat-live")
               (VDict (airtable_payload Sample.reading)) ]).
Proof.
  apply (@patch_exception_is_not_logged
           (Cases.with_patch Cases.scenario_a
              (inl (OtherException "ConnectionError")))
           Sample.reading initial (OtherException "ConnectionError"));
    reflexivity.
Defined.

(** X16. What a normal end means.  When a run ends without raising,
    either the extraction returned [None] and no PATCH was sent, or it
    returned a reading, the Airtable key check passed, and the one PATCH
    that was sent was answered with a status outside 400-599. *)
Theorem normal_end_is_skip_or_write json_loads w :
  fst (main json_loads w initial) = inr tt ->
  (fst (fetch_occupancy_from_cloudbeds json_loads w initial) = inr None /\
   count is_patch (trace (snd (main json_loads w initial))) = 0)
  \/
  (exists d resp,
     fst (fetch_occupancy_from_cloudbeds json_loads w initial)
       = inr (Some d) /\
     airtable_key_passes w /\
     requests_patch w airtable_url (airtable_headers (AIRTABLE_API_KEY w))
                    (VDict (airtable_payload d)) = inr resp /\
     ~ (400 <= status_code resp < 600)%Z /\
     count is_patch (trace (snd (main json_loads w initial))) = 1).
Proof.
  destruct (fetch_shape json_loads w) as (_ & _ & P & _).
  rewrite main_run.
  destruct (fetch_occupancy_from_cloudbeds json_loads w initial)
    as [[e|[d|]] s1]; cbn [fst snd] in *.
  - discriminate.
  - destruct (PyStr.is_empty (AIRTABLE_API_KEY w)
              || (AIRTABLE_API_KEY w =? "YOUR_AIRTABLE_API_KEY")%string)
      eqn:Hk.
    + rewrite update_key_fails by (unfold airtable_key_passes; congruence).
      discriminate.
    + rewrite (update_run _ _ Hk). cbn [fst snd add_events trace].
      intros H. right. exists d.
      destruct (requests_patch w airtable_url
                  (airtable_headers (AIRTABLE_API_KEY w))
                  (VDict (airtable_payload d))) as [e|resp] eqn:Hr;
        [discriminate|].
      exists resp. split; [reflexivity|]. split; [exact Hk|].
      split; [reflexivity|]. split.
      * intros [H1 H2]. cbn [patch_outcome] in H.
        unfold raise_for_status in H.
        apply Z.leb_le in H1. apply Z.ltb_lt in H2.
        rewrite H1, H2 in H. discriminate.
      * destruct (update_events_counts w d) as (_ & _ & _ & P2).
        rewrite !count_app, P, P2. reflexivity.
  - intros _. left. split; [reflexivity|].
    cbn [snd add_events trace]. rewrite count_app, P. reflexivity.
Qed.

Lemma normal_end_is_skip_or_write_witness :
  (fst (fetch_occupancy_from_cloudbeds Sample.json_loads Cases.scenario_a
          initial) = inr None /\
   count is_patch
     (trace (snd (main Sample.json_loads Cases.scenario_a initial))) = 0)
  \/
  (exists d resp,
     fst (fetch_occupancy_from_cloudbeds Sample.json_loads Cases.scenario_a
            initial) = inr (Some d) /\
     airtable_key_passes Cases.scenario_a /\
     requests_patch Cases.scenario_a airtable_url
       (airtable_headers (AIRTABLE_API_KEY Cases.scenario_a))
       (VDict (airtable_payload d)) = inr resp /\
     ~ (400 <= status_code resp < 600)%Z /\
     count is_patch
       (trace (snd (main Sample.json_loads Cases.scenario_a initial))) = 1).
Proof.
  apply (@normal_end_is_skip_or_write Sample.json_loads Cases.scenario_a).
  reflexivity.
Defined.


(** ** Stripping a wrapped text *)

Lemma str_app_assoc (a b c : string) :
  ((a ++ b) ++ c = a ++ (b ++ c))%string.
Proof. induction a as [|x a IH]; simpl; [reflexivity|now rewrite IH]. Qed.

Lemma str_app_nil_r (a : string) : (a ++ "" = a)%string.
Proof. induction a as [|x a IH]; simpl; [reflexivity|now rewrite IH]. Qed.

Lemma all_chars_weaken (p q : ascii -> bool) (s : string) :
  (forall c, p c = true -> q c = true) ->
  all_chars p s = true -> all_chars q s = true.
Proof.
  intros Hpq. induction s as [|c s IH]; simpl; [reflexivity|].
  intros H. apply andb_true_iff in H. destruct H as [H1 H2].
  now rewrite (Hpq c H1), (IH H2).
Qed.

Lemma lstrip_by_app_all (p : ascii -> bool) (a s : string) :
  all_chars p a = true ->
  PyStr.lstrip_by p (a ++ s)%string = PyStr.lstrip_by p s.
Proof.
  induction a as [|c a IH]; simpl; [reflexivity|].
  intros H. apply andb_true_iff in H. destruct H as [H1 H2].
  rewrite H1. now apply IH.
Qed.

Lemma rstrip_by_all (p : ascii -> bool) (a : string) :
  all_chars p a = true -> PyStr.rstrip_by p a = "".
Proof.
  induction a as [|c a IH]; simpl; [reflexivity|].
  intros H. apply andb_true_iff in H. destruct H as [H1 H2].
  now rewrite (IH H2), H1.
Qed.

Lemma rstrip_by_app_all (p : ascii -> bool) (s b : string) :
  all_chars p b = true ->
  PyStr.rstrip_by p (s ++ b)%string = PyStr.rstrip_by p s.
Proof.
  intros H. induction s as [|c s IH]; simpl.
  - now apply rstrip_by_all.
  - now rewrite IH.
Qed.

(** A text whose characters are all kept is left alone. *)
Lemma rstrip_by_none (p : ascii -> bool) (t : string) :
  all_chars (fun c => negb (p c)) t = true -> PyStr.rstrip_by p t = t.
Proof.
  induction t as [|c t IH]; simpl; [reflexivity|].
  intros H. apply andb_true_iff in H. destruct H as [H1 H2].
  apply negb_true_iff in H1. now rewrite (IH H2), H1, andb_false_r.
Qed.

(** A tail that right-stripping leaves alone protects what is before it. *)
Lemma rstrip_by_app_fixed (p : ascii -> bool) (s t : string) :
  PyStr.rstrip_by p t = t -> t <> "" ->
  PyStr.rstrip_by p (s ++ t)%string = (s ++ t)%string.
Proof.
  intros Ht Hne. induction s as [|c s IH]; simpl; [exact Ht|].
  rewrite IH. destruct (s ++ t)%string eqn:E; [|reflexivity].
  destruct s; simpl in E; [now elim Hne|discriminate].
Qed.

Lemma rstrip_by_app_kept (p : ascii -> bool) (s b : string) :
  PyStr.rstrip_by p s = s -> s <> "" ->
  all_chars (fun c => negb (p c)) b = true ->
  PyStr.rstrip_by p (s ++ b)%string = (s ++ b)%string.
Proof.
  intros Hs Hne Hb. destruct b as [|c b].
  - now rewrite str_app_nil_r.
  - apply rstrip_by_app_fixed; [now apply rstrip_by_none|discriminate].
Qed.

Lemma lstrip_by_app_kept (p : ascii -> bool) (a s : string) :
  all_chars (fun c => negb (p c)) a = true ->
  PyStr.lstrip_by p s = s ->
  PyStr.lstrip_by p (a ++ s)%string = (a ++ s)%string.
Proof.
  intros Ha Hs. destruct a as [|c a]; simpl; [exact Hs|].
  simpl in Ha. apply andb_true_iff in Ha. destruct Ha as [H1 _].
  apply negb_true_iff in H1. now rewrite H1.
Qed.

Lemma lstrip_by_app_r (p : ascii -> bool) (s b : string) :
  all_chars p b = true ->
  PyStr.lstrip_by p (s ++ b)%string =
    if PyStr.is_empty (PyStr.lstrip_by p s) then ""
    else (PyStr.lstrip_by p s ++ b)%string.
Proof.
  intros Hb. induction s as [|c s IH]; simpl.
  - rewrite <- (str_app_nil_r b). rewrite lstrip_by_app_all by assumption.
    reflexivity.
  - destruct (p c); [exact IH|reflexivity].
Qed.

(** Stripping does not see what it strips: a text wrapped in characters
    that are stripped is stripped like the text alone. *)
Lemma strip_by_wrapped (p : ascii -> bool) (a s b : string) :
  all_chars p a = true -> all_chars p b = true ->
  PyStr.strip_by p (a ++ s ++ b)%string = PyStr.strip_by p s.
Proof.
  intros Ha Hb. unfold PyStr.strip_by.
  rewrite lstrip_by_app_all by assumption.
  rewrite lstrip_by_app_r by assumption.
  destruct (PyStr.lstrip_by p s) as [|c l]; simpl PyStr.is_empty;
    [reflexivity|].
  change (String c l ++ b)%string with ((String c l) ++ b)%string.
  now apply rstrip_by_app_all.
Qed.

Lemma space_not_quote (c : ascii) :
  PyStr.isspace c = true -> negb (is_quote c) = true.
Proof.
  unfold is_quote. simpl.
  destruct (Ascii.eqb_spec c PyStr.dquote) as [->|_]; [discriminate|].
  destruct (Ascii.eqb_spec c PyStr.squote) as [->|_]; [discriminate|].
  reflexivity.
Qed.

Lemma quote_not_space (c : ascii) :
  is_quote c = true -> negb (PyStr.isspace c) = true.
Proof.
  intros H. destruct (PyStr.isspace c) eqn:E; [|reflexivity].
  apply space_not_quote in E. rewrite H in E. discriminate.
Qed.

(** The sentinel between whitespace is left alone by the stripping of
    quotes, and is what the stripping of whitespace leaves. *)
Lemma sentinel_in_spaces (a b : string) :
  all_chars PyStr.isspace a = true ->
  all_chars PyStr.isspace b = true ->
  PyStr.strip_by is_quote (a ++ "NO_DATA" ++ b)%string
    = (a ++ "NO_DATA" ++ b)%string /\
  PyStr.strip_by PyStr.isspace (a ++ "NO_DATA" ++ b)%string = "NO_DATA".
Proof.
  intros Ha Hb. split.
  - unfold PyStr.strip_by.
    rewrite lstrip_by_app_kept;
      [| apply (@all_chars_weaken _ _ _ space_not_quote Ha) | reflexivity].
    rewrite <- str_app_assoc.
    apply rstrip_by_app_kept;
      [| destruct a; discriminate
       | apply (@all_chars_weaken _ _ _ space_not_quote Hb)].
    apply rstrip_by_app_fixed; [reflexivity|discriminate].
  - now rewrite strip_by_wrapped.
Qed.

Lemma lstrip_by_app_fixed (p : ascii -> bool) (a s : string) :
  all_chars (fun c => negb (p c)) a = true -> a <> "" ->
  PyStr.lstrip_by p (a ++ s)%string = (a ++ s)%string.
Proof.
  intros Ha Hne. destruct a as [|c a]; [now elim Hne|].
  simpl in *. apply andb_true_iff in Ha. destruct Ha as [H1 _].
  apply negb_true_iff in H1. now rewrite H1.
Qed.

(** Whitespace is stripped from a text in quotes only where no quote
    stands before or after it. *)
Lemma strip_quoted_sentinel (q1 w2 w3 q2 : string) :
  all_chars is_quote q1 = true ->
  all_chars PyStr.isspace w2 = true ->
  all_chars PyStr.isspace w3 = true ->
  all_chars is_quote q2 = true ->
  exists a b,
    all_chars PyStr.isspace a = true /\
    all_chars PyStr.isspace b = true /\
    PyStr.strip_by PyStr.isspace (q1 ++ (w2 ++ "NO_DATA" ++ w3) ++ q2)%string
      = (q1 ++ (a ++ "NO_DATA" ++ b) ++ q2)%string.
Proof.
  intros Hq1 Hw2 Hw3 Hq2.
  pose proof (@all_chars_weaken _ _ _ quote_not_space Hq1) as Hn1.
  pose proof (@all_chars_weaken _ _ _ quote_not_space Hq2) as Hn2.
  destruct (string_dec q1 "") as [->|Hne1];
    destruct (string_dec q2 "") as [->|Hne2].
  - exists "", "". split; [reflexivity|]. split; [reflexivity|].
    cbn [append]. rewrite str_app_nil_r.
    apply (proj2 (@sentinel_in_spaces _ _ Hw2 Hw3)).
  - exists "", w3. split; [reflexivity|]. split; [assumption|].
    change ("" ++ (w2 ++ "NO_DATA" ++ w3) ++ q2)%string
      with ((w2 ++ "NO_DATA" ++ w3) ++ q2)%string.
    change ("" ++ ("" ++ "NO_DATA" ++ w3) ++ q2)%string
      with (("NO_DATA" ++ w3) ++ q2)%string.
    unfold PyStr.strip_by.
    rewrite str_app_assoc, lstrip_by_app_all by assumption.
    change (PyStr.lstrip_by PyStr.isspace (("NO_DATA" ++ w3) ++ q2)%string)
      with (("NO_DATA" ++ w3) ++ q2)%string.
    apply rstrip_by_app_fixed; [now apply rstrip_by_none|assumption].
  - exists w2, "". split; [assumption|]. split; [reflexivity|].
    rewrite !str_app_nil_r. unfold PyStr.strip_by.
    rewrite lstrip_by_app_fixed by assumption.
    rewrite <- !str_app_assoc. rewrite rstrip_by_app_all by assumption.
    apply rstrip_by_app_fixed; [reflexivity|discriminate].
  - exists w2, w3. split; [assumption|]. split; [assumption|].
    unfold PyStr.strip_by.
    rewrite lstrip_by_app_fixed by assumption.
    rewrite <- str_app_assoc.
    apply rstrip_by_app_fixed; [now apply rstrip_by_none|assumption].
Qed.

(** X11. The sentinel is recognised under any wrapping of whitespace and
    quote characters that the normalisation of lines 223-224 strips:
    whitespace, then quotes, then whitespace on either side of
    [NO_DATA]. *)
Theorem wrapped_sentinel_is_recognised (w1 q1 w2 w3 q2 w4 : string) :
  all_chars PyStr.isspace w1 = true ->
  all_chars is_quote q1 = true ->
  all_chars PyStr.isspace w2 = true ->
  all_chars PyStr.isspace w3 = true ->
  all_chars is_quote q2 = true ->
  all_chars PyStr.isspace w4 = true ->
  is_sentinel (w1 ++ q1 ++ w2 ++ "NO_DATA" ++ w3 ++ q2 ++ w4)%string.
Proof.
  intros H1 Hq1 H2 H3 Hq2 H4.
  unfold is_sentinel, PyStr.normalized, PyStr.strip, PyStr.strip_chars.
  change (fun c => existsb (Ascii.eqb c) [PyStr.dquote; PyStr.squote])
    with is_quote.
  replace (w1 ++ q1 ++ w2 ++ "NO_DATA" ++ w3 ++ q2 ++ w4)%string
    with (w1 ++ (q1 ++ (w2 ++ "NO_DATA" ++ w3) ++ q2) ++ w4)%string
    by (rewrite !str_app_assoc; reflexivity).
  rewrite strip_by_wrapped by assumption.
  destruct (@strip_quoted_sentinel _ _ _ _ Hq1 H2 H3 Hq2)
    as (a & b & Ha & Hb & ->).
  rewrite strip_by_wrapped by assumption.
  destruct (@sentinel_in_spaces _ _ Ha Hb) as [-> ->]. reflexivity.
Qed.

Lemma wrapped_sentinel_is_recognised_witness :
  is_sentinel
    (String "010" " " ++ Sample.q "" ++ String "009" ""
     ++ "NO_DATA" ++ " " ++ "'" ++ String "013" (String "010" ""))%string.
Proof.
  apply (@wrapped_sentinel_is_recognised
           (String "010" " ") (Sample.q "") (String "009" "")
           " " "'" (String "013" (String "010" "")));
    reflexivity.
Defined.
